(** * Galaxy simulation: placement generation and per-frame update

    A shallow embedding of the particle kernels and of the population
    controller of the WebGPU galaxy simulation.

    Arithmetic model.  Shader floats are read as real numbers.  The
    operations whose result the shading language leaves indeterminate
    (a division by zero, [pow] of a negative base, [normalize] of the zero
    vector) are partial: they return [None], and an indeterminate value
    taints everything computed from it, the way a NaN does.  A buffer
    element is therefore an [option]: [Some v] for a defined value, [None]
    for an indeterminate one.  A TSL expression is a node, not a value: a
    node used once is expanded where it is used, a node used several times
    is evaluated where it is first used, and an assignment takes effect
    where it is written.  The kernels are written out in that order.  The
    numbers of the JavaScript side (clock values, random draws, typed-array
    elements) are read as real numbers as well. *)

From Stdlib Require Import Reals Lra Lia ZArith List Bool.
From Stdlib Require Import Zfloor.
Import ListNotations.

Local Open Scope R_scope.

(** ** The option monad of indeterminate values *)

Definition bind {A B : Type} (m : option A) (f : A -> option B) : option B :=
  match m with
  | Some a => f a
  | None => None
  end.

Notation "x <- m ;; k" := (bind m (fun x => k))
  (at level 61, m at next level, right associativity).

(** ** How a method call ends

    A call returns, or the [RangeError] raised by a buffer allocation
    propagates to the caller.  Either way the object is left in a state:
    the fields assigned before the exception keep their new values. *)

Inductive Completion (A : Type) : Type :=
  | Normal (s : A)
  | Thrown (s : A).

Arguments Normal {A} s.
Arguments Thrown {A} s.

(** The object after the call, however the call ended. *)
Definition state_of {A : Type} (c : Completion A) : A :=
  match c with
  | Normal s => s
  | Thrown s => s
  end.

(** The next statement runs only when the call before it returned. *)
Definition andThen {A : Type} (c : Completion A) (f : A -> Completion A)
    : Completion A :=
  match c with
  | Normal s => f s
  | Thrown s => Thrown s
  end.

(** ** Shader primitives (three/tsl) *)

Module Tsl.

Record vec3 : Type := Vec3 { vx : R; vy : R; vz : R }.

Definition vzero : vec3 := Vec3 0 0 0.

Definition vadd (a b : vec3) : vec3 :=
  Vec3 (vx a + vx b) (vy a + vy b) (vz a + vz b).

Definition vsub (a b : vec3) : vec3 :=
  Vec3 (vx a - vx b) (vy a - vy b) (vz a - vz b).

Definition vscale (a : vec3) (k : R) : vec3 :=
  Vec3 (vx a * k) (vy a * k) (vz a * k).

Definition vneg (a : vec3) : vec3 :=
  Vec3 (- vx a) (- vy a) (- vz a).

(** [floor] and [fract]: [fract e = e - floor e]. *)
Definition floor (x : R) : R := IZR (Zfloor x).

Definition fract (x : R) : R := x - floor x.

(** [a.div(b)]: indeterminate when the divisor is zero. *)
Definition fdiv (a b : R) : option R :=
  if Req_dec_T b 0 then None else Some (a / b).

(** [x.pow(y)] is [exp2 (y * log2 x)]: zero at a zero base with a positive
    exponent, indeterminate at a negative base. *)
Definition pow (x y : R) : option R :=
  if Rlt_dec 0 x then Some (Rpower x y)
  else if Req_dec_T x 0 then (if Rlt_dec 0 y then Some 0 else None)
  else None.

Definition length (v : vec3) : R :=
  sqrt (vx v * vx v + vy v * vy v + vz v * vz v).

(** [normalize v = v / length v], component by component. *)
Definition normalize (v : vec3) : option vec3 :=
  let l := length v in
  x <- fdiv (vx v) l ;;
  y <- fdiv (vy v) l ;;
  z <- fdiv (vz v) l ;;
  Some (Vec3 x y z).

(** [instanceIndex.toFloat()] *)
Definition toFloat (idx : nat) : R := IZR (Z.of_nat idx).

End Tsl.

Import Tsl.

(** ** helpers.js: random numbers, rotation and forces *)

Module Helpers.

Definition hash (seed : R) : R :=
  let p := fract (seed * 0.1031) in
  let h := p + 19.19 in
  let x := fract (h * (h + 47.43) * p) in
  x.

Definition rotateXZ (position : vec3) (angle : R) : vec3 :=
  let cosTheta := cos angle in
  let sinTheta := sin angle in
  let newX := vx position * cosTheta - vz position * sinTheta in
  let newZ := vx position * sinTheta + vz position * cosTheta in
  Vec3 newX (vy position) newZ.

Definition applyDifferentialRotation (position : vec3)
    (rotationSpeed deltaTime : R) : option vec3 :=
  let distFromCenter := length (Vec3 (vx position) 0 (vz position)) in
  rotationFactor <- fdiv 1 (distFromCenter * 0.1 + 1) ;;
  let angularSpeed := - (rotationSpeed * rotationFactor * deltaTime) in
  Some (rotateXZ position angularSpeed).

Definition applyMouseForce (position mouse : vec3)
    (mouseActive mouseForce mouseRadius deltaTime : R) : option vec3 :=
  let toMouse := vsub mouse position in
  let distToMouse := length toMouse in
  ratio <- fdiv distToMouse mouseRadius ;;
  let mouseInfluence := mouseActive * Rmax (1 - ratio) 0 in
  mouseDir <- normalize toMouse ;;
  Some (vneg (vscale (vscale (vscale mouseDir mouseForce) mouseInfluence)
                     deltaTime)).

Definition applySpringForce (currentPos targetPos : vec3)
    (strength deltaTime : R) : vec3 :=
  let toTarget := vsub targetPos currentPos in
  vscale (vscale toTarget strength) deltaTime.

End Helpers.

Import Helpers.

(** ** main.js: the configuration object *)

Module Config.

(** The configuration object shared by the UI and the simulation.  A colour
    is held as its RGB value. *)
Record t : Type := Make {
  starCount : Z;
  rotationSpeed : R;
  spiralTightness : R;
  mouseForce : R;
  mouseRadius : R;
  galaxyRadius : R;
  galaxyThickness : R;
  armCount : R;
  armWidth : R;
  randomness : R;
  particleSize : R;
  starBrightness : R;
  denseStarColor : vec3;
  sparseStarColor : vec3;
  cloudCount : Z;
  cloudSize : R;
  cloudOpacity : R;
  cloudTintColor : vec3
}.

End Config.

(** The argument of [updateUniforms]: an object in which any key may be
    [undefined]. *)
Module Update.

Record t : Type := Make {
  galaxyRadius : option R;
  galaxyThickness : option R;
  spiralTightness : option R;
  armCount : option R;
  armWidth : option R;
  randomness : option R;
  rotationSpeed : option R;
  mouseForce : option R;
  mouseRadius : option R;
  particleSize : option R;
  cloudSize : option R;
  cloudOpacity : option R;
  starBrightness : option R;
  denseStarColor : option vec3;
  sparseStarColor : option vec3;
  cloudTintColor : option vec3;
  cloudCount : option Z
}.

(** The object with every key [undefined]. *)
Definition empty : t :=
  Make None None None None None None None None None None None None None
       None None None None.

(** Passing the whole configuration object: every key is defined. *)
Definition of_config (c : Config.t) : t :=
  Make (Some (Config.galaxyRadius c)) (Some (Config.galaxyThickness c))
       (Some (Config.spiralTightness c)) (Some (Config.armCount c))
       (Some (Config.armWidth c)) (Some (Config.randomness c))
       (Some (Config.rotationSpeed c)) (Some (Config.mouseForce c))
       (Some (Config.mouseRadius c)) (Some (Config.particleSize c))
       (Some (Config.cloudSize c)) (Some (Config.cloudOpacity c))
       (Some (Config.starBrightness c)) (Some (Config.denseStarColor c))
       (Some (Config.sparseStarColor c)) (Some (Config.cloudTintColor c))
       (Some (Config.cloudCount c)).

End Update.

(** ** galaxy.js: uniforms, kernels and the population controller *)

Module Galaxy.

Record ComputeUniforms : Type := {
  compute_time : R;
  compute_deltaTime : R;
  compute_mouse : vec3;
  compute_mouseActive : R;
  compute_mouseForce : R;
  compute_mouseRadius : R;
  compute_rotationSpeed : R
}.

Record GalaxyUniforms : Type := {
  galaxy_radius : R;
  galaxy_thickness : R;
  galaxy_spiralTightness : R;
  galaxy_armCount : R;
  galaxy_armWidth : R;
  galaxy_randomness : R
}.

Record VisualUniforms : Type := {
  visual_particleSize : R;
  visual_cloudSize : R;
  visual_cloudOpacity : R;
  visual_starBrightness : R;
  visual_denseStarColor : vec3;
  visual_sparseStarColor : vec3;
  visual_cloudTintColor : vec3
}.

Record Uniforms : Type := {
  u_compute : ComputeUniforms;
  u_galaxy : GalaxyUniforms;
  u_visual : VisualUniforms
}.

(** *** Star placement: the body of [computeInit] for one [instanceIndex] *)

Record StarInit : Type := {
  star_position : option vec3;
  star_velocity : option vec3;
  star_density : option R
}.

(** [const seed = idx.toFloat()] *)
Definition computeInit_seed (idx : nat) : R := toFloat idx.

Definition computeInit (g : GalaxyUniforms) (idx : nat) : StarInit :=
  let seed := computeInit_seed idx in
  let radius :=
    (r0 <- pow (hash (seed + 1)) 0.5 ;; Some (r0 * galaxy_radius g)) in
  let normalizedRadius := (r <- radius ;; fdiv r (galaxy_radius g)) in
  let armIndex := floor (hash (seed + 2) * galaxy_armCount g) in
  let armAngle := fdiv (armIndex * 6.28318) (galaxy_armCount g) in
  let spiralAngle :=
    (n <- normalizedRadius ;; Some (n * galaxy_spiralTightness g * 6.28318)) in
  let angleOffset := (hash (seed + 3) - 0.5) * galaxy_randomness g in
  let radiusOffset := (hash (seed + 4) - 0.5) * galaxy_armWidth g in
  let angle :=
    (a <- armAngle ;; s <- spiralAngle ;; Some (a + s + angleOffset)) in
  let offsetRadius := (r <- radius ;; Some (r + radiusOffset)) in
  let x := (a <- angle ;; r <- offsetRadius ;; Some (cos a * r)) in
  let z := (a <- angle ;; r <- offsetRadius ;; Some (sin a * r)) in
  let thicknessFactor := (n <- normalizedRadius ;; Some (1 - n + 0.2)) in
  let y :=
    (t <- thicknessFactor ;;
     Some ((hash (seed + 5) - 0.5) * galaxy_thickness g * t)) in
  let position := (x' <- x ;; y' <- y ;; z' <- z ;; Some (Vec3 x' y' z')) in
  let orbitalSpeed :=
    (r <- offsetRadius ;; q <- fdiv 1 (r + 0.5) ;; Some (q * 5)) in
  let vx := (a <- angle ;; o <- orbitalSpeed ;; Some (- (sin a * o))) in
  let vz := (a <- angle ;; o <- orbitalSpeed ;; Some (cos a * o)) in
  let velocity := (vx' <- vx ;; vz' <- vz ;; Some (Vec3 vx' 0 vz')) in
  let radialSparsity :=
    fdiv (Rabs radiusOffset) (galaxy_armWidth g * 0.5 + 0.01) in
  let angularSparsity :=
    fdiv (Rabs angleOffset) (galaxy_randomness g * 0.5 + 0.01) in
  let sparsityFactor :=
    (a <- radialSparsity ;; b <- angularSparsity ;;
     Some (Rmin ((a + b) * 0.5) 1)) in
  {| star_position := position;
     star_velocity := velocity;
     star_density := sparsityFactor |}.

(** *** Cloud placement: the body of [cloudInit] for one [instanceIndex] *)

Record CloudInit : Type := {
  cloud_position : option vec3;
  cloud_color : option vec3;
  cloud_size : option R;
  cloud_rotation : option R
}.

(** [const seed = idx.toFloat().add(10000)] *)
Definition cloudInit_seed (idx : nat) : R := toFloat idx + 10000.

Definition cloudInit (g : GalaxyUniforms) (v : VisualUniforms) (idx : nat)
    : CloudInit :=
  let seed := cloudInit_seed idx in
  let radius :=
    (r0 <- pow (hash (seed + 1)) 0.7 ;; Some (r0 * galaxy_radius g)) in
  let normalizedRadius := (r <- radius ;; fdiv r (galaxy_radius g)) in
  let armIndex := floor (hash (seed + 2) * galaxy_armCount g) in
  let armAngle := fdiv (armIndex * 6.28318) (galaxy_armCount g) in
  let spiralAngle :=
    (n <- normalizedRadius ;; Some (n * galaxy_spiralTightness g * 6.28318)) in
  let angleOffset := (hash (seed + 3) - 0.5) * galaxy_randomness g in
  let radiusOffset := (hash (seed + 4) - 0.5) * galaxy_armWidth g in
  let angle :=
    (a <- armAngle ;; s <- spiralAngle ;; Some (a + s + angleOffset)) in
  let offsetRadius := (r <- radius ;; Some (r + radiusOffset)) in
  let x := (a <- angle ;; r <- offsetRadius ;; Some (cos a * r)) in
  let z := (a <- angle ;; r <- offsetRadius ;; Some (sin a * r)) in
  let thicknessFactor := (n <- normalizedRadius ;; Some (1 - n + 0.15)) in
  let y :=
    (t <- thicknessFactor ;;
     Some ((hash (seed + 5) - 0.5) * galaxy_thickness g * t)) in
  let position := (x' <- x ;; y' <- y ;; z' <- z ;; Some (Vec3 x' y' z')) in
  let tintColor := visual_cloudTintColor v in
  let cloudColor :=
    (n <- normalizedRadius ;; Some (vscale tintColor (1 - n * 0.3))) in
  let densityFactor := (n <- normalizedRadius ;; Some (1 - n * 0.5)) in
  let size :=
    (d <- densityFactor ;; Some ((hash (seed + 6) * 0.5 + 0.7) * d)) in
  let rotation := hash (seed + 7) * 6.28318 in
  {| cloud_position := position;
     cloud_color := cloudColor;
     cloud_size := size;
     cloud_rotation := Some rotation |}.

(** *** The update kernels.  [computeUpdate] and [cloudUpdate] have the same
    body up to the spring strength ([float(2.0)] and [float(1.0)]); the
    result is the new content of the position buffer and of the
    original-position buffer at [idx]. *)

Definition updateBody (strength : R) (c : ComputeUniforms)
    (position0 originalPos : option vec3) : option vec3 * option vec3 :=
  let rotatedPos :=
    (p <- position0 ;;
     applyDifferentialRotation p (compute_rotationSpeed c)
                               (compute_deltaTime c)) in
  let position1 := rotatedPos in
  let rotatedOriginal :=
    (o <- originalPos ;;
     applyDifferentialRotation o (compute_rotationSpeed c)
                               (compute_deltaTime c)) in
  let mouseForce :=
    (p <- position1 ;;
     applyMouseForce p (compute_mouse c) (compute_mouseActive c)
                     (compute_mouseForce c) (compute_mouseRadius c)
                     (compute_deltaTime c)) in
  let position2 := (p <- position1 ;; f <- mouseForce ;; Some (vadd p f)) in
  let springForce :=
    (p <- position2 ;; o <- rotatedOriginal ;;
     Some (applySpringForce p o strength (compute_deltaTime c))) in
  let position3 := (p <- position2 ;; f <- springForce ;; Some (vadd p f)) in
  (position3, rotatedOriginal).

Definition computeUpdate : ComputeUniforms -> option vec3 -> option vec3 ->
                           option vec3 * option vec3 :=
  updateBody 2.

Definition cloudUpdate : ComputeUniforms -> option vec3 -> option vec3 ->
                         option vec3 * option vec3 :=
  updateBody 1.

(** *** Storage buffers and compute dispatches *)

(** [instancedArray(count, type)]: [count] zero-initialised elements; the
    allocation of a negative number of elements raises a [RangeError]. *)
Definition instancedArray {A : Type} (count : Z) (zero : A)
    : option (list (option A)) :=
  if (count <? 0)%Z then None
  else Some (repeat (Some zero) (Z.to_nat count)).

(** What [createGalaxySystem] builds: the four star buffers and the two
    kernels, both dispatched over the [COUNT] read at creation. *)
Record StarSystem : Type := {
  star_count : nat;
  spawnPositionBuffer : list (option vec3);
  originalPositionBuffer : list (option vec3);
  velocityBuffer : list (option vec3);
  densityFactorBuffer : list (option R)
}.

(** What [createClouds] builds. *)
Record CloudSystem : Type := {
  CLOUD_COUNT : nat;
  cloudPositionBuffer : list (option vec3);
  cloudOriginalPositionBuffer : list (option vec3);
  cloudColorBuffer : list (option vec3);
  cloudSizeBuffer : list (option R);
  cloudRotationBuffer : list (option R)
}.

(** [renderer.computeAsync(this.computeInit)] *)
Definition runComputeInit (g : GalaxyUniforms) (st : StarSystem)
    : StarSystem :=
  let out := map (computeInit g) (seq 0 (star_count st)) in
  {| star_count := star_count st;
     spawnPositionBuffer := map star_position out;
     originalPositionBuffer := map star_position out;
     velocityBuffer := map star_velocity out;
     densityFactorBuffer := map star_density out |}.

(** [renderer.computeAsync(this.computeUpdate)] *)
Definition runComputeUpdate (c : ComputeUniforms) (st : StarSystem)
    : StarSystem :=
  let out :=
    map (fun po => computeUpdate c (fst po) (snd po))
        (combine (spawnPositionBuffer st) (originalPositionBuffer st)) in
  {| star_count := star_count st;
     spawnPositionBuffer := map fst out;
     originalPositionBuffer := map snd out;
     velocityBuffer := velocityBuffer st;
     densityFactorBuffer := densityFactorBuffer st |}.

(** [renderer.computeAsync(this.cloudInit)] *)
Definition runCloudInit (g : GalaxyUniforms) (v : VisualUniforms)
    (cl : CloudSystem) : CloudSystem :=
  let out := map (cloudInit g v) (seq 0 (CLOUD_COUNT cl)) in
  {| CLOUD_COUNT := CLOUD_COUNT cl;
     cloudPositionBuffer := map cloud_position out;
     cloudOriginalPositionBuffer := map cloud_position out;
     cloudColorBuffer := map cloud_color out;
     cloudSizeBuffer := map cloud_size out;
     cloudRotationBuffer := map cloud_rotation out |}.

(** [renderer.computeAsync(this.cloudUpdate)] *)
Definition runCloudUpdate (c : ComputeUniforms) (cl : CloudSystem)
    : CloudSystem :=
  let out :=
    map (fun po => cloudUpdate c (fst po) (snd po))
        (combine (cloudPositionBuffer cl) (cloudOriginalPositionBuffer cl)) in
  {| CLOUD_COUNT := CLOUD_COUNT cl;
     cloudPositionBuffer := map fst out;
     cloudOriginalPositionBuffer := map snd out;
     cloudColorBuffer := cloudColorBuffer cl;
     cloudSizeBuffer := cloudSizeBuffer cl;
     cloudRotationBuffer := cloudRotationBuffer cl |}.

(** *** The [GalaxySimulation] object *)

Record GalaxySimulation : Type := {
  config : Config.t;
  COUNT : Z;
  uniforms : Uniforms;
  stars : option StarSystem;
  clouds : option CloudSystem;
  initialized : bool;
  cloudInitialized : bool
}.

(** [a || b] on numbers: [0] is falsy. *)
Definition or_default (a b : R) : R :=
  if Req_dec_T a 0 then b else a.

Definition initializeUniforms (config : Config.t) : Uniforms :=
  {| u_compute :=
       {| compute_time := 0;
          compute_deltaTime := 0.016;
          compute_mouse := Vec3 0 0 0;
          compute_mouseActive := 0;
          compute_mouseForce := Config.mouseForce config;
          compute_mouseRadius := Config.mouseRadius config;
          compute_rotationSpeed := Config.rotationSpeed config |};
     u_galaxy :=
       {| galaxy_radius := Config.galaxyRadius config;
          galaxy_thickness := or_default (Config.galaxyThickness config) 0.1;
          galaxy_spiralTightness := Config.spiralTightness config;
          galaxy_armCount := Config.armCount config;
          galaxy_armWidth := Config.armWidth config;
          galaxy_randomness := Config.randomness config |};
     u_visual :=
       {| visual_particleSize := Config.particleSize config;
          visual_cloudSize := Config.cloudSize config;
          visual_cloudOpacity := Config.cloudOpacity config;
          visual_starBrightness := Config.starBrightness config;
          visual_denseStarColor := Config.denseStarColor config;
          visual_sparseStarColor := Config.sparseStarColor config;
          visual_cloudTintColor := Config.cloudTintColor config |} |}.

Definition constructor (config : Config.t) : GalaxySimulation :=
  {| config := config;
     COUNT := Config.starCount config;
     uniforms := initializeUniforms config;
     stars := None;
     clouds := None;
     initialized := false;
     cloudInitialized := false |}.

(** [createGalaxySystem()].  The four allocations have the same count: the
    first one throws, before any field is assigned, or none does; the
    kernels are built after the buffers.  The scene, from which the old
    sprite is removed first, is not part of the state. *)
Definition createGalaxySystem (s : GalaxySimulation)
    : Completion GalaxySimulation :=
  match instancedArray (COUNT s) vzero, instancedArray (COUNT s) vzero,
        instancedArray (COUNT s) vzero, instancedArray (COUNT s) 0 with
  | Some spawn, Some original, Some velocity, Some density =>
      Normal
        {| config := config s;
           COUNT := COUNT s;
           uniforms := uniforms s;
           stars :=
             Some {| star_count := Z.to_nat (COUNT s);
                     spawnPositionBuffer := spawn;
                     originalPositionBuffer := original;
                     velocityBuffer := velocity;
                     densityFactorBuffer := density |};
           clouds := clouds s;
           initialized := initialized s;
           cloudInitialized := cloudInitialized s |}
  | _, _, _, _ => Thrown s
  end.

(** [createClouds()].  The buffers are local constants and the kernels, the
    count and the flag are assigned after all five allocations, so a
    [RangeError] leaves every field of the state as it was.  The scene, from
    which the old sprite is removed first, is not part of the state. *)
Definition createClouds (s : GalaxySimulation)
    : Completion GalaxySimulation :=
  let CLOUD_COUNT := Config.cloudCount (config s) in
  match instancedArray CLOUD_COUNT vzero, instancedArray CLOUD_COUNT vzero,
        instancedArray CLOUD_COUNT vzero, instancedArray CLOUD_COUNT 0,
        instancedArray CLOUD_COUNT 0 with
  | Some position, Some original, Some color, Some size, Some rotation =>
      Normal
        {| config := config s;
           COUNT := COUNT s;
           uniforms := uniforms s;
           stars := stars s;
           clouds :=
             Some {| CLOUD_COUNT := Z.to_nat CLOUD_COUNT;
                     cloudPositionBuffer := position;
                     cloudOriginalPositionBuffer := original;
                     cloudColorBuffer := color;
                     cloudSizeBuffer := size;
                     cloudRotationBuffer := rotation |};
           initialized := initialized s;
           cloudInitialized := false |}
  | _, _, _, _, _ => Thrown s
  end.

Definition set_starCount (n : Z) (c : Config.t) : Config.t :=
  Config.Make n (Config.rotationSpeed c) (Config.spiralTightness c)
    (Config.mouseForce c) (Config.mouseRadius c) (Config.galaxyRadius c)
    (Config.galaxyThickness c) (Config.armCount c) (Config.armWidth c)
    (Config.randomness c) (Config.particleSize c) (Config.starBrightness c)
    (Config.denseStarColor c) (Config.sparseStarColor c)
    (Config.cloudCount c) (Config.cloudSize c) (Config.cloudOpacity c)
    (Config.cloudTintColor c).

Definition set_cloudCount (n : Z) (c : Config.t) : Config.t :=
  Config.Make (Config.starCount c) (Config.rotationSpeed c)
    (Config.spiralTightness c) (Config.mouseForce c) (Config.mouseRadius c)
    (Config.galaxyRadius c) (Config.galaxyThickness c) (Config.armCount c)
    (Config.armWidth c) (Config.randomness c) (Config.particleSize c)
    (Config.starBrightness c) (Config.denseStarColor c)
    (Config.sparseStarColor c) n (Config.cloudSize c)
    (Config.cloudOpacity c) (Config.cloudTintColor c).

(** [updateStarCount(newCount)]: the count is stored in [COUNT] and in the
    configuration before [createGalaxySystem()] is called; when that call
    throws, [this.initialized = false] is not reached. *)
Definition updateStarCount (newCount : Z) (s : GalaxySimulation)
    : Completion GalaxySimulation :=
  let s1 :=
    {| config := set_starCount newCount (config s);
       COUNT := newCount;
       uniforms := uniforms s;
       stars := stars s;
       clouds := clouds s;
       initialized := initialized s;
       cloudInitialized := cloudInitialized s |} in
  andThen (createGalaxySystem s1)
    (fun s2 =>
       Normal {| config := config s2;
                 COUNT := COUNT s2;
                 uniforms := uniforms s2;
                 stars := stars s2;
                 clouds := clouds s2;
                 initialized := false;
                 cloudInitialized := cloudInitialized s2 |}).

(** [if (configUpdate.key !== undefined) target = configUpdate.key] *)
Definition assign_if_defined {A : Type} (v : option A) (old : A) : A :=
  match v with
  | Some a => a
  | None => old
  end.

Definition updateUniforms (configUpdate : Update.t) (s : GalaxySimulation)
    : GalaxySimulation :=
  let c := u_compute (uniforms s) in
  let g := u_galaxy (uniforms s) in
  let v := u_visual (uniforms s) in
  let g' :=
    {| galaxy_radius :=
         assign_if_defined (Update.galaxyRadius configUpdate)
                           (galaxy_radius g);
       galaxy_thickness :=
         assign_if_defined (Update.galaxyThickness configUpdate)
                           (galaxy_thickness g);
       galaxy_spiralTightness :=
         assign_if_defined (Update.spiralTightness configUpdate)
                           (galaxy_spiralTightness g);
       galaxy_armCount :=
         assign_if_defined (Update.armCount configUpdate) (galaxy_armCount g);
       galaxy_armWidth :=
         assign_if_defined (Update.armWidth configUpdate) (galaxy_armWidth g);
       galaxy_randomness :=
         assign_if_defined (Update.randomness configUpdate)
                           (galaxy_randomness g) |} in
  let c' :=
    {| compute_time := compute_time c;
       compute_deltaTime := compute_deltaTime c;
       compute_mouse := compute_mouse c;
       compute_mouseActive := compute_mouseActive c;
       compute_mouseForce :=
         assign_if_defined (Update.mouseForce configUpdate)
                           (compute_mouseForce c);
       compute_mouseRadius :=
         assign_if_defined (Update.mouseRadius configUpdate)
                           (compute_mouseRadius c);
       compute_rotationSpeed :=
         assign_if_defined (Update.rotationSpeed configUpdate)
                           (compute_rotationSpeed c) |} in
  let v' :=
    {| visual_particleSize :=
         assign_if_defined (Update.particleSize configUpdate)
                           (visual_particleSize v);
       visual_cloudSize :=
         assign_if_defined (Update.cloudSize configUpdate)
                           (visual_cloudSize v);
       visual_cloudOpacity :=
         assign_if_defined (Update.cloudOpacity configUpdate)
                           (visual_cloudOpacity v);
       visual_starBrightness :=
         assign_if_defined (Update.starBrightness configUpdate)
                           (visual_starBrightness v);
       visual_denseStarColor :=
         assign_if_defined (Update.denseStarColor configUpdate)
                           (visual_denseStarColor v);
       visual_sparseStarColor :=
         assign_if_defined (Update.sparseStarColor configUpdate)
                           (visual_sparseStarColor v);
       visual_cloudTintColor :=
         assign_if_defined (Update.cloudTintColor configUpdate)
                           (visual_cloudTintColor v) |} in
  {| config :=
       match Update.cloudCount configUpdate with
       | Some n => set_cloudCount n (config s)
       | None => config s
       end;
     COUNT := COUNT s;
     uniforms := {| u_compute := c'; u_galaxy := g'; u_visual := v' |};
     stars := stars s;
     clouds := clouds s;
     initialized := initialized s;
     cloudInitialized := cloudInitialized s |}.

(** The compute dispatches of one [update] call, in the order they are
    awaited. *)
Inductive Dispatch : Type :=
  | RunComputeInit
  | RunCloudInit
  | RunComputeUpdate
  | RunCloudUpdate.

(** [update(renderer, deltaTime, mouse3D, mousePressed)].  The star kernels
    are [null] until [createGalaxySystem] has run, and dispatching [null]
    fails; the cloud kernels are tested before use. *)
Definition update (deltaTime : R) (mouse3D : vec3) (mousePressed : bool)
    (s : GalaxySimulation) : option (GalaxySimulation * list Dispatch) :=
  st0 <- stars s ;;
  let g := u_galaxy (uniforms s) in
  let v := u_visual (uniforms s) in
  let initStars := negb (initialized s) in
  let st1 := if initStars then runComputeInit g st0 else st0 in
  let initClouds :=
    match clouds s with
    | Some _ => negb (cloudInitialized s)
    | None => false
    end in
  let cl1 :=
    if initClouds then option_map (runCloudInit g v) (clouds s)
    else clouds s in
  let c := u_compute (uniforms s) in
  let c' :=
    {| compute_time := compute_time c + deltaTime;
       compute_deltaTime := deltaTime;
       compute_mouse := mouse3D;
       compute_mouseActive := if mousePressed then 1 else 0;
       compute_mouseForce := compute_mouseForce c;
       compute_mouseRadius := compute_mouseRadius c;
       compute_rotationSpeed := compute_rotationSpeed c |} in
  let st2 := runComputeUpdate c' st1 in
  let cl2 := option_map (runCloudUpdate c') cl1 in
  Some ({| config := config s;
           COUNT := COUNT s;
           uniforms := {| u_compute := c'; u_galaxy := g; u_visual := v |};
           stars := Some st2;
           clouds := cl2;
           initialized := true;
           cloudInitialized := cloudInitialized s || initClouds |},
        (if initStars then [RunComputeInit] else [])
        ++ (if initClouds then [RunCloudInit] else [])
        ++ [RunComputeUpdate]
        ++ (match cl2 with Some _ => [RunCloudUpdate] | None => [] end)).

Definition regenerate (s : GalaxySimulation) : GalaxySimulation :=
  {| config := config s;
     COUNT := COUNT s;
     uniforms := uniforms s;
     stars := stars s;
     clouds := clouds s;
     initialized := false;
     cloudInitialized := false |}.

(** *** The star material: colour from the density factor *)

(** [mix(a, b, t)] is [a * (1 - t) + b * t], component by component. *)
Definition mix (a b : vec3) (t : R) : vec3 :=
  vadd (vscale a (1 - t)) (vscale b t).

(** [starColorNode] for one star, from its element of the density buffer. *)
Definition starColorNode (v : VisualUniforms) (densityFactor : option R)
    : option vec3 :=
  d <- densityFactor ;;
  Some (vscale (mix (visual_denseStarColor v) (visual_sparseStarColor v) d)
               (visual_starBrightness v)).

End Galaxy.

(** ** main.js and ui.js: the parameter surface *)

Module Main.

Import Galaxy.

(** The configuration literal of main.js; a colour is the triple of its
    hexadecimal string. *)
Definition config : Config.t :=
  Config.Make 750000 0.1 1.75 7 10 13 3 2 2.25 1.8 0.06 0.3
    (Vec3 (24/255) (133/255) 1) (Vec3 1 (178/255) (138/255))
    5000 3 0.02 (Vec3 1 (218/255) (206/255)).

(** [new GalaxySimulation(scene, config, cloudTexture)] followed by
    [createGalaxySystem()] and [createClouds()]. *)
Definition galaxySimulation : GalaxySimulation :=
  state_of (andThen (createGalaxySystem (constructor config)) createClouds).

(** [onRegenerate]: [updateUniforms(config); createClouds(); regenerate()].
    The configuration object is the one the simulation holds. *)
Definition onRegenerate (s : GalaxySimulation)
    : Completion GalaxySimulation :=
  andThen
    (createClouds (updateUniforms (Update.of_config (Galaxy.config s)) s))
    (fun s1 => Normal (regenerate s1)).

(** [onStarCountChange]: [updateStarCount(newCount)], then the count shown
    on the page is refreshed. *)
Definition onStarCountChange (newCount : Z) (s : GalaxySimulation)
    : Completion GalaxySimulation :=
  updateStarCount newCount s.

(** [onUniformChange(key, value)] is [updateUniforms({ [key]: value })];
    these are the keys ui.js passes to it, by the kind of their value. *)
Inductive NumericKey : Type :=
  | ParticleSize
  | StarBrightness
  | CloudSize
  | CloudOpacity
  | RotationSpeed
  | MouseForce
  | MouseRadius.

Inductive ColorKey : Type :=
  | DenseStarColor
  | SparseStarColor.

(** [{ [key]: value }] for a numeric key *)
Definition numeric_update (key : NumericKey) (value : R) : Update.t :=
  Update.Make None None None None None None
    (match key with RotationSpeed => Some value | _ => None end)
    (match key with MouseForce => Some value | _ => None end)
    (match key with MouseRadius => Some value | _ => None end)
    (match key with ParticleSize => Some value | _ => None end)
    (match key with CloudSize => Some value | _ => None end)
    (match key with CloudOpacity => Some value | _ => None end)
    (match key with StarBrightness => Some value | _ => None end)
    None None None None.

(** [{ [key]: value }] for a colour key *)
Definition color_update (key : ColorKey) (value : vec3) : Update.t :=
  Update.Make None None None None None None None None None None None None
    None
    (match key with DenseStarColor => Some value | _ => None end)
    (match key with SparseStarColor => Some value | _ => None end)
    None None.

Definition onUniformChange (key : NumericKey) (value : R)
    (s : GalaxySimulation) : GalaxySimulation :=
  updateUniforms (numeric_update key value) s.

Definition onUniformChangeColor (key : ColorKey) (value : vec3)
    (s : GalaxySimulation) : GalaxySimulation :=
  updateUniforms (color_update key value) s.

(** [onCloudCountChange]: [updateUniforms({ cloudCount }); createClouds()] *)
Definition onCloudCountChange (newCount : Z) (s : GalaxySimulation)
    : Completion GalaxySimulation :=
  createClouds
    (updateUniforms
       (Update.Make None None None None None None None None None None None
                    None None None None None (Some newCount)) s).

(** [onCloudTintChange]: [updateUniforms({ cloudTintColor }); createClouds()] *)
Definition onCloudTintChange (color : vec3) (s : GalaxySimulation)
    : Completion GalaxySimulation :=
  createClouds
    (updateUniforms
       (Update.Make None None None None None None None None None None None
                    None None None None (Some color) None) s).

(** *** The FPS counter *)

Record FpsCounter : Type := {
  frameCount : Z;
  lastTime : R;
  fps : R
}.

(** [Math.round]: the nearest integer, halves upwards. *)
Definition Math_round (x : R) : R := IZR (Zfloor (x + 0.5)).

(** [updateFPS()], with the value [performance.now()] returns as argument;
    the second component is the value written to the page and passed to
    [ui.updateFPS], when there is one. *)
Definition updateFPS (currentTime : R) (s : FpsCounter)
    : FpsCounter * option R :=
  let frameCount1 := (frameCount s + 1)%Z in
  let deltaTime := currentTime - lastTime s in
  if Rle_dec 1000 deltaTime then
    let fps1 := Math_round (IZR frameCount1 * 1000 / deltaTime) in
    ({| frameCount := 0; lastTime := currentTime; fps := fps1 |}, Some fps1)
  else
    ({| frameCount := frameCount1; lastTime := lastTime s; fps := fps s |},
     None).

(** *** The animation loop *)

(** [Math.min((currentTime - lastFrameTime) / 1000, 0.033)] *)
Definition frameDeltaTime (currentTime lastFrameTime : R) : R :=
  Rmin ((currentTime - lastFrameTime) / 1000) 0.033.

(** One [animate()] call on the pair of [lastFrameTime] and the simulation,
    with the value of [performance.now()] and the mouse state as arguments.
    The camera controls, the rendering and the FPS counter, which do not
    touch this state, are left out. *)
Definition animate (currentTime : R) (mouse3D : vec3) (mousePressed : bool)
    (st : R * GalaxySimulation)
    : option ((R * GalaxySimulation) * list Dispatch) :=
  let deltaTime := frameDeltaTime currentTime (fst st) in
  r <- update deltaTime mouse3D mousePressed (snd st) ;;
  Some ((currentTime, fst r), snd r).

(** *** The starry background *)

(** One iteration of the loop of [createStarryBackground]: the position and
    the colour written for star [i].  [random k] is the value of the
    [k]-th call of [Math.random()]; each iteration makes five calls. *)
Definition backgroundStar (random : nat -> R) (i : nat) : vec3 * vec3 :=
  let theta := random (5 * i)%nat * PI * 2 in
  let phi := acos (2 * random (5 * i + 1)%nat - 1) in
  let radius := 100 + random (5 * i + 2)%nat * 100 in
  let position :=
    Vec3 (radius * sin phi * cos theta)
         (radius * sin phi * sin theta)
         (radius * cos phi) in
  let color := 0.8 + random (5 * i + 3)%nat * 0.2 in
  let tint := random (5 * i + 4)%nat in
  let rgb :=
    if Rlt_dec tint 0.1 then Vec3 (color * 0.8) (color * 0.9) color
    else if Rlt_dec tint 0.2 then Vec3 color (color * 0.8) (color * 0.6)
    else Vec3 color color color in
  (position, rgb).

Definition createStarryBackground (random : nat -> R) (count : nat)
    : list (vec3 * vec3) :=
  map (backgroundStar random) (seq 0 count).

End Main.

Module Ui.

Import Galaxy.

(** The structural parameters bound in [setupGalaxyFolder] to
    [onRegenerate]. *)
Inductive StructuralParam : Type :=
  | SpiralTightness
  | ArmCount
  | ArmWidth
  | Randomness
  | GalaxyRadius
  | GalaxyThickness.

(** The binding writes the edited value into the configuration object. *)
Definition write_config (k : StructuralParam) (value : R) (c : Config.t)
    : Config.t :=
  Config.Make (Config.starCount c) (Config.rotationSpeed c)
    (match k with SpiralTightness => value | _ => Config.spiralTightness c end)
    (Config.mouseForce c) (Config.mouseRadius c)
    (match k with GalaxyRadius => value | _ => Config.galaxyRadius c end)
    (match k with GalaxyThickness => value | _ => Config.galaxyThickness c end)
    (match k with ArmCount => value | _ => Config.armCount c end)
    (match k with ArmWidth => value | _ => Config.armWidth c end)
    (match k with Randomness => value | _ => Config.randomness c end)
    (Config.particleSize c) (Config.starBrightness c)
    (Config.denseStarColor c) (Config.sparseStarColor c)
    (Config.cloudCount c) (Config.cloudSize c) (Config.cloudOpacity c)
    (Config.cloudTintColor c).

(** A change event on a structural binding: the value is written into the
    shared configuration object, then [onRegenerate] is called. *)
Definition onStructuralChange (k : StructuralParam) (value : R)
    (s : GalaxySimulation) : Completion GalaxySimulation :=
  Main.onRegenerate
    {| config := write_config k value (Galaxy.config s);
       COUNT := COUNT s;
       uniforms := uniforms s;
       stars := stars s;
       clouds := clouds s;
       initialized := initialized s;
       cloudInitialized := cloudInitialized s |}.

(** The binding of a numeric cosmetic parameter writes the value into the
    configuration object and calls [onUniformChange] with it. *)
Definition write_numeric (k : Main.NumericKey) (value : R) (c : Config.t)
    : Config.t :=
  Config.Make (Config.starCount c)
    (match k with Main.RotationSpeed => value | _ => Config.rotationSpeed c end)
    (Config.spiralTightness c)
    (match k with Main.MouseForce => value | _ => Config.mouseForce c end)
    (match k with Main.MouseRadius => value | _ => Config.mouseRadius c end)
    (Config.galaxyRadius c) (Config.galaxyThickness c) (Config.armCount c)
    (Config.armWidth c) (Config.randomness c)
    (match k with Main.ParticleSize => value | _ => Config.particleSize c end)
    (match k with
     | Main.StarBrightness => value
     | _ => Config.starBrightness c
     end)
    (Config.denseStarColor c) (Config.sparseStarColor c)
    (Config.cloudCount c)
    (match k with Main.CloudSize => value | _ => Config.cloudSize c end)
    (match k with Main.CloudOpacity => value | _ => Config.cloudOpacity c end)
    (Config.cloudTintColor c).

Definition onCosmeticChange (k : Main.NumericKey) (value : R)
    (s : GalaxySimulation) : GalaxySimulation :=
  Main.onUniformChange k value
    {| config := write_numeric k value (Galaxy.config s);
       COUNT := COUNT s;
       uniforms := uniforms s;
       stars := stars s;
       clouds := clouds s;
       initialized := initialized s;
       cloudInitialized := cloudInitialized s |}.

(** The cloud-count binding writes the value and calls
    [onCloudCountChange] with it. *)
Definition onCloudCountEdit (value : Z) (s : GalaxySimulation)
    : Completion GalaxySimulation :=
  Main.onCloudCountChange value
    {| config := set_cloudCount value (Galaxy.config s);
       COUNT := COUNT s;
       uniforms := uniforms s;
       stars := stars s;
       clouds := clouds s;
       initialized := initialized s;
       cloudInitialized := cloudInitialized s |}.

End Ui.


(** ** The kernels of the single-file version of galaxy.js, where rotation,
    mouse force and spring are written in line *)

Module GalaxyInline.

Import Galaxy.

Definition computeInit (g : GalaxyUniforms) (idx : nat) : StarInit :=
  let seed := toFloat idx in
  let radius :=
    (r0 <- pow (hash (seed + 1)) 0.5 ;; Some (r0 * galaxy_radius g)) in
  let armIndex := floor (hash (seed + 2) * galaxy_armCount g) in
  let armAngle := fdiv (armIndex * 6.28318) (galaxy_armCount g) in
  let spiralAngle :=
    (q <- (r <- radius ;; fdiv r (galaxy_radius g)) ;;
     Some (q * galaxy_spiralTightness g * 6.28318)) in
  let angleOffset := (hash (seed + 3) - 0.5) * galaxy_randomness g in
  let radiusOffset := (hash (seed + 4) - 0.5) * galaxy_armWidth g in
  let angle :=
    (a <- armAngle ;; s <- spiralAngle ;; Some (a + s + angleOffset)) in
  let offsetRadius := (r <- radius ;; Some (r + radiusOffset)) in
  let x := (a <- angle ;; r <- offsetRadius ;; Some (cos a * r)) in
  let z := (a <- angle ;; r <- offsetRadius ;; Some (sin a * r)) in
  let normalizedRadius := (r <- radius ;; fdiv r (galaxy_radius g)) in
  let thicknessFactor := (n <- normalizedRadius ;; Some (1 - n + 0.2)) in
  let y :=
    (t <- thicknessFactor ;;
     Some ((hash (seed + 5) - 0.5) * galaxy_thickness g * t)) in
  let initialPos :=
    (x' <- x ;; y' <- y ;; z' <- z ;; Some (Vec3 x' y' z')) in
  let orbitalSpeed :=
    (r <- offsetRadius ;; q <- fdiv 1 (r + 0.5) ;; Some (q * 5)) in
  let vx := (a <- angle ;; o <- orbitalSpeed ;; Some (- (sin a * o))) in
  let vz := (a <- angle ;; o <- orbitalSpeed ;; Some (cos a * o)) in
  let velocity := (vx' <- vx ;; vz' <- vz ;; Some (Vec3 vx' 0 vz')) in
  let radialSparsity :=
    fdiv (Rabs radiusOffset) (galaxy_armWidth g * 0.5 + 0.01) in
  let angularSparsity :=
    fdiv (Rabs angleOffset) (galaxy_randomness g * 0.5 + 0.01) in
  let sparsityFactor :=
    (a <- radialSparsity ;; b <- angularSparsity ;;
     Some (Rmin ((a + b) * 0.5) 1)) in
  {| star_position := initialPos;
     star_velocity := velocity;
     star_density := sparsityFactor |}.

(** The in-line differential rotation of the position.  [cosTheta] and
    [sinTheta] are used twice and so are evaluated at their first use, from
    the position as read.  [newX] and [newZ] are used once each:
    [position.x.assign(newX)] expands [newX] and assigns it, and
    [position.z.assign(newZ)] then expands [newZ], whose [position.x] is the
    value just assigned. *)
Definition rotatePositionInline (c : ComputeUniforms) (p : vec3)
    : option vec3 :=
  let dt := compute_deltaTime c in
  let distFromCenter := length (Vec3 (vx p) 0 (vz p)) in
  rotationFactor <- fdiv 1 (distFromCenter * 0.1 + 1) ;;
  let angularSpeed := compute_rotationSpeed c * rotationFactor * dt in
  let cosTheta := cos (- angularSpeed) in
  let sinTheta := sin (- angularSpeed) in
  let x1 := vx p * cosTheta - vz p * sinTheta in
  let z1 := x1 * sinTheta + vz p * cosTheta in
  Some (Vec3 x1 (vy p) z1).

(** The in-line differential rotation of the original position.  Its result
    [rotatedOriginalPos] is used twice and so is evaluated once, where it
    is stored, from the buffer element as read. *)
Definition rotateOriginalInline (c : ComputeUniforms) (o : vec3)
    : option vec3 :=
  let dt := compute_deltaTime c in
  let originalDistFromCenter := length (Vec3 (vx o) 0 (vz o)) in
  originalRotationFactor <- fdiv 1 (originalDistFromCenter * 0.1 + 1) ;;
  let originalAngularSpeed :=
    compute_rotationSpeed c * originalRotationFactor * dt in
  let originalCosTheta := cos (- originalAngularSpeed) in
  let originalSinTheta := sin (- originalAngularSpeed) in
  let rotatedOriginalX := vx o * originalCosTheta - vz o * originalSinTheta in
  let rotatedOriginalZ := vx o * originalSinTheta + vz o * originalCosTheta in
  Some (Vec3 rotatedOriginalX (vy o) rotatedOriginalZ).

Definition updateBody (strength : R) (c : ComputeUniforms)
    (position0 originalPos : option vec3) : option vec3 * option vec3 :=
  let dt := compute_deltaTime c in
  let position1 := (p <- position0 ;; rotatePositionInline c p) in
  let rotatedOriginalPos := (o <- originalPos ;; rotateOriginalInline c o) in
  let position2 :=
    (p <- position1 ;;
     let toMouse := vsub (compute_mouse c) p in
     let distToMouse := length toMouse in
     ratio <- fdiv distToMouse (compute_mouseRadius c) ;;
     let mouseInfluence := compute_mouseActive c * Rmax (1 - ratio) 0 in
     mouseDir <- normalize toMouse ;;
     let pushForce :=
       vneg (vscale (vscale (vscale mouseDir (compute_mouseForce c))
                            mouseInfluence) dt) in
     Some (vadd p pushForce)) in
  let position3 :=
    (p <- position2 ;; o <- rotatedOriginalPos ;;
     let toOriginal := vsub o p in
     let springForce := vscale (vscale toOriginal strength) dt in
     Some (vadd p springForce)) in
  (position3, rotatedOriginalPos).

Definition computeUpdate : ComputeUniforms -> option vec3 -> option vec3 ->
                           option vec3 * option vec3 :=
  updateBody 2.

Definition cloudUpdate : ComputeUniforms -> option vec3 -> option vec3 ->
                         option vec3 * option vec3 :=
  updateBody 1.

End GalaxyInline.

(** ** Measures used in the statements *)

(** Distance from the centre in the galactic plane: [length(x, z)]. *)
Definition planar (p : vec3) : R := sqrt (vx p * vx p + vz p * vz p).

(** Distance between two points. *)
Definition dist (a b : vec3) : R := length (vsub a b).

(** ** Buffer sizes and runs used in the statements *)

(** Every buffer of a star system holds one element per particle. *)
Definition star_sized (st : Galaxy.StarSystem) : Prop :=
  List.length (Galaxy.spawnPositionBuffer st) = Galaxy.star_count st
  /\ List.length (Galaxy.originalPositionBuffer st) = Galaxy.star_count st
  /\ List.length (Galaxy.velocityBuffer st) = Galaxy.star_count st
  /\ List.length (Galaxy.densityFactorBuffer st) = Galaxy.star_count st.

Definition cloud_sized (cl : Galaxy.CloudSystem) : Prop :=
  List.length (Galaxy.cloudPositionBuffer cl) = Galaxy.CLOUD_COUNT cl
  /\ List.length (Galaxy.cloudOriginalPositionBuffer cl)
     = Galaxy.CLOUD_COUNT cl
  /\ List.length (Galaxy.cloudColorBuffer cl) = Galaxy.CLOUD_COUNT cl
  /\ List.length (Galaxy.cloudSizeBuffer cl) = Galaxy.CLOUD_COUNT cl
  /\ List.length (Galaxy.cloudRotationBuffer cl) = Galaxy.CLOUD_COUNT cl.

Definition well_sized (s : Galaxy.GalaxySimulation) : Prop :=
  match Galaxy.stars s with
  | Some st => star_sized st
  | None => True
  end
  /\ match Galaxy.clouds s with
     | Some cl => cloud_sized cl
     | None => True
     end.

(** The FPS counter run over the successive values of [performance.now()]. *)
Fixpoint runFPS (times : list R) (s : Main.FpsCounter) : Main.FpsCounter :=
  match times with
  | [] => s
  | t :: rest => runFPS rest (fst (Main.updateFPS t s))
  end.

(** The animation loop run over successive frames, each given by the value
    of [performance.now()] and the mouse state at that frame. *)
Fixpoint runAnimate (frames : list (R * vec3 * bool))
    (st : R * Galaxy.GalaxySimulation)
    : option (R * Galaxy.GalaxySimulation) :=
  match frames with
  | [] => Some st
  | (t, m, b) :: rest =>
      r <- Main.animate t m b st ;; runAnimate rest (fst r)
  end.

(** The clock values of the frames never go back. *)
Fixpoint chronological (last : R) (frames : list (R * vec3 * bool)) : Prop :=
  match frames with
  | [] => True
  | (t, _, _) :: rest => last <= t /\ chronological t rest
  end.

(** ** Parameters and states used in the examples *)

Import Galaxy.

(** The scenario parameters: one arm, no jitter, radius 10, flat disc. *)
Definition scenario_uniforms : GalaxyUniforms :=
  {| galaxy_radius := 10;
     galaxy_thickness := 0;
     galaxy_spiralTightness := 0;
     galaxy_armCount := 1;
     galaxy_armWidth := 0;
     galaxy_randomness := 0 |}.

(** The compute uniforms of the first frames: mouse at the origin and not
    pressed, force 7, radius 10, a 16 ms step. *)
Definition rest_uniforms (rotationSpeed : R) : ComputeUniforms :=
  {| compute_time := 0;
     compute_deltaTime := 0.016;
     compute_mouse := Vec3 0 0 0;
     compute_mouseActive := 0;
     compute_mouseForce := 7;
     compute_mouseRadius := 10;
     compute_rotationSpeed := rotationSpeed |}.

(** [{ armCount: value }] *)
Definition armCount_update (value : R) : Update.t :=
  Update.Make None None None (Some value) None None None None None None None
              None None None None None None.

(** [{ galaxyRadius: -1, armCount: 0 }] *)
Definition malformed_update : Update.t :=
  Update.Make (Some (-1)) None None (Some 0) None None None None None None
              None None None None None None None.


(** A population of three stars and two clouds, after its first frame. *)
Definition small_config : Config.t :=
  set_starCount 3 (set_cloudCount 2 Main.config).

(** The population as main.js sets it up, before its first frame. *)
Definition small_created : GalaxySimulation :=
  state_of (andThen (createGalaxySystem (constructor small_config))
                    createClouds).

Definition small_simulation : GalaxySimulation :=
  match update 0.016 (Vec3 0 0 0) false small_created with
  | Some (s, _) => s
  | None => constructor small_config
  end.

(** [{ cloudCount: value }] *)
Definition cloudCount_update (value : Z) : Update.t :=
  Update.Make None None None None None None None None None None None None
              None None None None (Some value).

(** The same population after [updateUniforms({ cloudCount: -1 })]. *)
Definition negative_clouds_simulation : GalaxySimulation :=
  updateUniforms (cloudCount_update (-1)) small_simulation.



(** Compute uniforms under which a point at planar distance 1 turns by one
    radian in a frame: [11 * (1 / (1 * 0.1 + 1)) * 0.1 = 1]. *)
Definition one_radian_uniforms : ComputeUniforms :=
  {| compute_time := 0;
     compute_deltaTime := 0.1;
     compute_mouse := Vec3 0 0 0;
     compute_mouseActive := 0;
     compute_mouseForce := 7;
     compute_mouseRadius := 10;
     compute_rotationSpeed := 11 |}.

(** ** Numeric facts about the primitives *)

Lemma fract_range (x : R) : 0 <= fract x < 1.
Proof.
  unfold fract, floor.
  pose proof (Zfloor_bound x) as Hb.
  lra.
Qed.

Lemma fdiv_some (a b : R) : b <> 0 -> fdiv a b = Some (a / b).
Proof.
  intros Hb. unfold fdiv.
  destruct (Req_dec_T b 0) as [E | _]; [contradiction | reflexivity].
Qed.

Lemma fdiv_zero (a : R) : fdiv a 0 = None.
Proof.
  unfold fdiv.
  destruct (Req_dec_T 0 0) as [_ | N]; [reflexivity | now elim N].
Qed.

(** C1: [hash] is the stated composition of [fract], gives equal results on
    equal seeds, and its result lies in the half-open interval [0,1). *)
Theorem hash_formula_pure_range :
  forall s : R,
    hash s =
      fract ((fract (s * 0.1031) + 19.19)
             * (fract (s * 0.1031) + 19.19 + 47.43)
             * fract (s * 0.1031))
    /\ (forall s' : R, s' = s -> hash s' = hash s)
    /\ 0 <= hash s < 1.
Proof.
  intros s. split; [reflexivity | split].
  - intros s' ->. reflexivity.
  - unfold hash. apply fract_range.
Qed.

Lemma hash_formula_pure_range_witness :
  hash (3 - 2) = hash 1 /\ 0 <= hash 1 < 1.
Proof.
  destruct (hash_formula_pure_range 1) as [_ [Hpure Hrange]].
  split; [apply Hpure; lra | exact Hrange].
Defined.

(** ** Values of the hash *)


Lemma fract_add_int (x : R) (z : Z) : fract (x + IZR z) = fract x.
Proof.
  unfold fract, floor. rewrite Zfloor_addz, plus_IZR. ring.
Qed.


(** In exact arithmetic the hash has period 10000, the seed offset of the
    clouds: [0.1031 * 10000] is an integer. *)
Lemma hash_period_10000 (s : R) : hash (s + 10000) = hash s.
Proof.
  unfold hash. cbv zeta.
  replace ((s + 10000) * 0.1031) with (s * 0.1031 + IZR 1031) by lra.
  now rewrite fract_add_int.
Qed.

Lemma pow_defined (x y : R) :
  0 <= x -> 0 < y -> exists v, pow x y = Some v /\ 0 <= v.
Proof.
  intros Hx Hy. unfold pow.
  destruct (Rlt_dec 0 x) as [Hpos | Hnpos].
  - exists (Rpower x y). split; [reflexivity |].
    unfold Rpower. left. apply exp_pos.
  - destruct (Req_dec_T x 0) as [E | N]; [| lra].
    destruct (Rlt_dec 0 y) as [_ | Hn]; [| contradiction].
    exists 0. split; [reflexivity | lra].
Qed.

Lemma pow_hash (s y : R) :
  0 < y -> exists v, pow (hash s) y = Some v /\ 0 <= v.
Proof.
  intros Hy. apply pow_defined; [| exact Hy].
  unfold hash. apply fract_range.
Qed.

Lemma polar_square (a r : R) :
  cos a * r * (cos a * r) + sin a * r * (sin a * r) = Rsqr r.
Proof.
  pose proof (sin2_cos2 a) as H. unfold Rsqr in *.
  replace (cos a * r * (cos a * r) + sin a * r * (sin a * r))
    with ((sin a * sin a + cos a * cos a) * (r * r)) by ring.
  rewrite H. ring.
Qed.

(** A point written in polar form lies at distance [|r|] from the centre. *)
Lemma planar_polar (a r y : R) :
  planar (Vec3 (cos a * r) y (sin a * r)) = Rabs r.
Proof.
  unfold planar. simpl. rewrite polar_square. apply sqrt_Rsqr_abs.
Qed.

Lemma rotation_square (x z a : R) :
  (x * cos a - z * sin a) * (x * cos a - z * sin a)
  + (x * sin a + z * cos a) * (x * sin a + z * cos a)
  = x * x + z * z.
Proof.
  pose proof (sin2_cos2 a) as H. unfold Rsqr in H.
  replace ((x * cos a - z * sin a) * (x * cos a - z * sin a)
           + (x * sin a + z * cos a) * (x * sin a + z * cos a))
    with ((sin a * sin a + cos a * cos a) * (x * x + z * z)) by ring.
  rewrite H. ring.
Qed.

Lemma planar_rotateXZ (p : vec3) (a : R) : planar (rotateXZ p a) = planar p.
Proof.
  unfold planar, rotateXZ. simpl. now rewrite rotation_square.
Qed.

Lemma length_planar (p : vec3) :
  length (Vec3 (vx p) 0 (vz p)) = planar p.
Proof.
  unfold length, planar. simpl. f_equal. ring.
Qed.

Lemma planar_nonneg (p : vec3) : 0 <= planar p.
Proof. unfold planar. apply sqrt_pos. Qed.

(** The rotation factor never divides by zero. *)
Lemma applyDifferentialRotation_defined (p : vec3) (w dt : R) :
  applyDifferentialRotation p w dt
  = Some (rotateXZ p (- (w * (1 / (planar p * 0.1 + 1)) * dt))).
Proof.
  unfold applyDifferentialRotation.
  rewrite length_planar.
  pose proof (planar_nonneg p) as Hp.
  rewrite fdiv_some by lra.
  reflexivity.
Qed.

(** ** Placement *)



Lemma planar_polar_nojitter (a r0 rad h y : R) :
  0 <= r0 -> 0 < rad ->
  planar (Vec3 (cos a * (r0 * rad + h * 0)) y (sin a * (r0 * rad + h * 0)))
  = r0 * rad.
Proof.
  intros H0 Hr. rewrite planar_polar.
  replace (r0 * rad + h * 0) with (r0 * rad) by ring.
  apply Rabs_right. apply Rle_ge. apply Rmult_le_pos; lra.
Qed.

(** The single-file kernel computes the same placement. *)
Lemma computeInit_inline_agrees (g : GalaxyUniforms) (idx : nat) :
  GalaxyInline.computeInit g idx = Galaxy.computeInit g idx.
Proof. reflexivity. Qed.




(** A zero arm count reaching generation: the arm angle divides by it. *)
Lemma computeInit_zero_arms (g : GalaxyUniforms) (idx : nat) :
  galaxy_armCount g = 0 -> star_position (computeInit g idx) = None.
Proof.
  intros H. unfold computeInit. cbv zeta. cbn [star_position].
  rewrite H, fdiv_zero. cbn [bind]. reflexivity.
Qed.




(** ** The update recurrence *)

(** The in-line rotation of the original position is the helper's
    rotation. *)
Lemma rotateOriginalInline_agrees (c : ComputeUniforms) (o : vec3) :
  GalaxyInline.rotateOriginalInline c o
  = applyDifferentialRotation o (compute_rotationSpeed c)
                              (compute_deltaTime c).
Proof.
  unfold GalaxyInline.rotateOriginalInline, applyDifferentialRotation.
  destruct (fdiv 1 (length (Vec3 (vx o) 0 (vz o)) * 0.1 + 1)) as [f |];
    reflexivity.
Qed.

(** The in-line rotation of the position, written out: the new [z] is
    computed from the new [x]. *)
Lemma rotatePositionInline_defined (c : ComputeUniforms) (p : vec3) :
  let angle :=
    - (compute_rotationSpeed c * (1 / (planar p * 0.1 + 1))
       * compute_deltaTime c) in
  let x1 := vx p * cos angle - vz p * sin angle in
  GalaxyInline.rotatePositionInline c p
  = Some (Vec3 x1 (vy p) (x1 * sin angle + vz p * cos angle)).
Proof.
  intros angle x1. unfold GalaxyInline.rotatePositionInline.
  rewrite length_planar.
  pose proof (planar_nonneg p) as Hp.
  rewrite fdiv_some by lra.
  reflexivity.
Qed.

Lemma updateBody_inline_anchor (strength : R) (c : ComputeUniforms)
    (position0 : option vec3) (a : vec3) :
  snd (GalaxyInline.updateBody strength c position0 (Some a))
  = applyDifferentialRotation a (compute_rotationSpeed c)
                              (compute_deltaTime c).
Proof.
  unfold GalaxyInline.updateBody. cbv zeta. cbn [snd bind].
  apply rotateOriginalInline_agrees.
Qed.

Lemma updateBody_anchor (strength : R) (c : ComputeUniforms)
    (position0 : option vec3) (a : vec3) :
  snd (Galaxy.updateBody strength c position0 (Some a))
  = applyDifferentialRotation a (compute_rotationSpeed c)
                              (compute_deltaTime c).
Proof. reflexivity. Qed.

(** The rotation of the helpers keeps the planar distance from the centre,
    for every point and every angle: in [rotateXZ], in
    [applyDifferentialRotation] as the update kernels of the class apply it
    to the position and to the anchor, and in the anchor that either version
    of the update writes back. *)
Lemma rotation_preserves_planar_distance :
  forall (p : vec3) (angle strength : R) (c : ComputeUniforms)
         (position0 : option vec3),
    planar (rotateXZ p angle) = planar p
    /\ (exists q,
          applyDifferentialRotation p (compute_rotationSpeed c)
                                    (compute_deltaTime c) = Some q
          /\ planar q = planar p)
    /\ (exists a',
          snd (Galaxy.updateBody strength c position0 (Some p)) = Some a'
          /\ planar a' = planar p)
    /\ (exists a',
          snd (GalaxyInline.updateBody strength c position0 (Some p)) = Some a'
          /\ planar a' = planar p).
Proof.
  intros p angle strength c position0.
  assert (Hrot : exists q,
             applyDifferentialRotation p (compute_rotationSpeed c)
                                       (compute_deltaTime c) = Some q
             /\ planar q = planar p).
  { eexists. split; [apply applyDifferentialRotation_defined |].
    apply planar_rotateXZ. }
  split; [apply planar_rotateXZ |].
  split; [exact Hrot |].
  split.
  - rewrite updateBody_anchor. exact Hrot.
  - rewrite updateBody_inline_anchor. exact Hrot.
Qed.

(** C10: the update writes back as anchor the rotated anchor and nothing
    else: its [y] is the previous [y], and the value does not depend on the
    position, the mouse state, the mouse force and radius, or the spring
    strength. *)
Theorem anchor_changed_by_rotation_only :
  forall (a : vec3) (w dt : R)
         (strength strength' t t' active active' force force' radius radius' : R)
         (m m' : vec3) (position0 position0' : option vec3),
    let c := {| compute_time := t; compute_deltaTime := dt;
                compute_mouse := m; compute_mouseActive := active;
                compute_mouseForce := force; compute_mouseRadius := radius;
                compute_rotationSpeed := w |} in
    let c' := {| compute_time := t'; compute_deltaTime := dt;
                 compute_mouse := m'; compute_mouseActive := active';
                 compute_mouseForce := force'; compute_mouseRadius := radius';
                 compute_rotationSpeed := w |} in
    snd (Galaxy.updateBody strength c position0 (Some a))
    = Some (rotateXZ a (- (w * (1 / (planar a * 0.1 + 1)) * dt)))
    /\ vy (rotateXZ a (- (w * (1 / (planar a * 0.1 + 1)) * dt))) = vy a
    /\ snd (Galaxy.updateBody strength' c' position0' (Some a))
       = snd (Galaxy.updateBody strength c position0 (Some a))
    /\ snd (GalaxyInline.updateBody strength c position0 (Some a))
       = snd (Galaxy.updateBody strength c position0 (Some a))
    /\ snd (Galaxy.computeUpdate c position0 (Some a))
       = snd (Galaxy.cloudUpdate c position0 (Some a)).
Proof.
  intros a w dt strength strength' t t' active active' force force'
         radius radius' m m' position0 position0' c c'.
  split.
  - rewrite updateBody_anchor. apply applyDifferentialRotation_defined.
  - split; [reflexivity |].
    split; [reflexivity |].
    split; [| reflexivity].
    now rewrite updateBody_inline_anchor, updateBody_anchor.
Qed.

(** *** The mouse force *)

Lemma length_vsub_self (p : vec3) : length (vsub p p) = 0.
Proof.
  unfold length, vsub. simpl.
  replace ((vx p - vx p) * (vx p - vx p) + (vy p - vy p) * (vy p - vy p)
           + (vz p - vz p) * (vz p - vz p)) with 0 by ring.
  apply sqrt_0.
Qed.

Lemma normalize_zero_length (v : vec3) : length v = 0 -> normalize v = None.
Proof.
  intros H. unfold normalize. cbv zeta. rewrite H, fdiv_zero. reflexivity.
Qed.

Lemma vec3_eq (a b : vec3) :
  vx a = vx b -> vy a = vy b -> vz a = vz b -> a = b.
Proof.
  destruct a, b. simpl. intros -> -> ->. reflexivity.
Qed.

Lemma length_pos (p m : vec3) : p <> m -> 0 < length (vsub m p).
Proof.
  intros Hne. unfold length, vsub. simpl.
  apply sqrt_lt_R0.
  destruct (Rle_lt_dec
              ((vx m - vx p) * (vx m - vx p) + (vy m - vy p) * (vy m - vy p)
               + (vz m - vz p) * (vz m - vz p)) 0) as [Hle | Hlt];
    [| exact Hlt].
  exfalso. apply Hne.
  pose proof (Rle_0_sqr (vx m - vx p)) as Hx.
  pose proof (Rle_0_sqr (vy m - vy p)) as Hy.
  pose proof (Rle_0_sqr (vz m - vz p)) as Hz.
  unfold Rsqr in Hx, Hy, Hz.
  assert (Ex : (vx m - vx p) * (vx m - vx p) = 0) by lra.
  assert (Ey : (vy m - vy p) * (vy m - vy p) = 0) by lra.
  assert (Ez : (vz m - vz p) * (vz m - vz p) = 0) by lra.
  apply Rsqr_0_uniq in Ex, Ey, Ez.
  apply vec3_eq; lra.
Qed.

Lemma normalize_defined (v : vec3) :
  length v <> 0 ->
  normalize v
  = Some (Vec3 (vx v / length v) (vy v / length v) (vz v / length v)).
Proof.
  intros H. unfold normalize. cbv zeta.
  rewrite !fdiv_some by exact H. reflexivity.
Qed.

(** C3: in the single-file version the rotation sub-step written in line
    does not keep the planar distance of the position.  The point [(1, 0, 0)]
    turning by one radian goes to [(cos 1, 0, -(cos 1 * sin 1))], nearer to
    the centre, while its anchor goes to [(cos 1, 0, -(sin 1))], at the same
    distance, as with the helper; the kernel then writes the position
    [(cos 1, 0, -(0.8 * cos 1 * sin 1) - 0.2 * sin 1)]. *)
Theorem inline_position_rotation_shears :
  let c := one_radian_uniforms in
  let p := Vec3 1 0 0 in
  let q := Vec3 (cos 1) 0 (- (cos 1 * sin 1)) in
  let a' := Vec3 (cos 1) 0 (- sin 1) in
  GalaxyInline.rotatePositionInline c p = Some q
  /\ planar p = 1
  /\ planar q * planar q = 1 - sin 1 * sin 1 * (sin 1 * sin 1)
  /\ planar q < planar p
  /\ GalaxyInline.rotateOriginalInline c p = Some a'
  /\ applyDifferentialRotation p (compute_rotationSpeed c)
                               (compute_deltaTime c) = Some a'
  /\ planar a' = planar p
  /\ GalaxyInline.computeUpdate c (Some p) (Some p)
     = (Some (Vec3 (cos 1) 0 (- (0.8 * cos 1 * sin 1) - 0.2 * sin 1)),
        Some a').
Proof.
  intros c p q a'.
  assert (Hplanar : planar p = 1).
  { unfold planar, p. simpl.
    replace (1 * 1 + 0 * 0) with 1 by ring. apply sqrt_1. }
  assert (Hangle : - (compute_rotationSpeed c * (1 / (planar p * 0.1 + 1))
                      * compute_deltaTime c) = - (1)).
  { rewrite Hplanar. unfold c, one_radian_uniforms.
    cbn [compute_rotationSpeed compute_deltaTime]. lra. }
  assert (Hsin : 0 < sin 1).
  { apply sin_gt_0; [lra |]. pose proof PI2_1. lra. }
  pose proof (sin2_cos2 1) as Hsc. unfold Rsqr in Hsc.
  assert (Hs1 : sin 1 * sin 1 <= 1) by nra.
  assert (Hq : GalaxyInline.rotatePositionInline c p = Some q).
  { pose proof (rotatePositionInline_defined c p) as H. cbv zeta in H.
    rewrite H, Hangle, cos_neg, sin_neg. unfold q, p. simpl.
    f_equal. f_equal; ring. }
  assert (Ha : applyDifferentialRotation p (compute_rotationSpeed c)
                                         (compute_deltaTime c) = Some a').
  { rewrite applyDifferentialRotation_defined, Hangle.
    unfold rotateXZ, a', p. simpl. rewrite cos_neg, sin_neg.
    f_equal. f_equal; ring. }
  assert (Hqq : planar q * planar q = 1 - sin 1 * sin 1 * (sin 1 * sin 1)).
  { unfold planar, q. simpl. rewrite sqrt_sqrt by nra.
    assert (Hc : cos 1 * cos 1 = 1 - sin 1 * sin 1) by lra.
    transitivity (cos 1 * cos 1 * (1 + sin 1 * sin 1)); [ring |].
    rewrite Hc. ring. }
  assert (Hcpos : 0 < cos 1).
  { apply cos_gt_0; pose proof PI2_1; lra. }
  assert (Hs2 : 0 < sin 1 * sin 1) by (apply Rmult_lt_0_compat; exact Hsin).
  assert (Hs4 : 0 < sin 1 * sin 1 * (sin 1 * sin 1))
    by (apply Rmult_lt_0_compat; exact Hs2).
  assert (Hqpos : 0 < planar q * planar q).
  { rewrite Hqq.
    replace (1 - sin 1 * sin 1 * (sin 1 * sin 1))
      with (cos 1 * cos 1 * (1 + sin 1 * sin 1)).
    - apply Rmult_lt_0_compat; [apply Rmult_lt_0_compat; exact Hcpos | lra].
    - replace (cos 1 * cos 1) with (1 - sin 1 * sin 1) by lra. ring. }
  assert (Hqlt : planar q < planar p).
  { rewrite Hplanar. pose proof (planar_nonneg q) as Hq0.
    destruct (Rlt_le_dec (planar q) 1) as [Hlt | Hge]; [exact Hlt |].
    exfalso.
    assert (1 * 1 <= planar q * planar q)
      by (apply Rmult_le_compat; lra).
    lra. }
  split; [exact Hq |].
  split; [exact Hplanar |].
  split; [exact Hqq |].
  split; [exact Hqlt |].
  split; [rewrite rotateOriginalInline_agrees; exact Ha |].
  split; [exact Ha |].
  split.
  { unfold planar, a', p. simpl. f_equal.
    replace (1 * 1 + 0 * 0) with (sin 1 * sin 1 + cos 1 * cos 1) by lra.
    ring. }
  unfold GalaxyInline.computeUpdate, GalaxyInline.updateBody. cbv zeta.
  cbn [bind]. rewrite Hq, rotateOriginalInline_agrees, Ha. cbn [bind].
  assert (Hlen : length (vsub (compute_mouse c) q) = planar q).
  { unfold length, planar, vsub, q, c. simpl. f_equal. ring. }
  assert (Hq0 : planar q <> 0) by (intros E; rewrite E in Hqpos; lra).
  rewrite fdiv_some by (unfold c; simpl; lra). cbn [bind].
  rewrite normalize_defined by (rewrite Hlen; exact Hq0). cbn [bind].
  rewrite <- Hlen in Hq0.
  generalize dependent (length (vsub (compute_mouse c) q)).
  intros L _ HL.
  generalize (Rmax (1 - L / compute_mouseRadius c) 0). intros M.
  f_equal. f_equal.
  unfold vadd, vsub, vscale, vneg, q, a', c, one_radian_uniforms.
  cbn [vx vy vz compute_mouse compute_mouseActive compute_mouseForce
       compute_deltaTime].
  repeat rewrite ?Rmult_0_l, ?Rmult_0_r.
  f_equal; lra.
Qed.

(** Away from the force origin, and with a radius that is not zero, the
    mouse force is defined. *)
Lemma applyMouseForce_defined (p m : vec3) (active force radius dt : R) :
  radius <> 0 -> p <> m ->
  applyMouseForce p m active force radius dt
  = Some (vneg (vscale (vscale (vscale
            (Vec3 (vx (vsub m p) / dist m p) (vy (vsub m p) / dist m p)
                  (vz (vsub m p) / dist m p)) force)
            (active * Rmax (1 - dist m p / radius) 0)) dt)).
Proof.
  intros Hr Hne. unfold applyMouseForce, dist. cbv zeta.
  pose proof (length_pos p m Hne) as Hl.
  rewrite fdiv_some by exact Hr. cbn [bind].
  rewrite normalize_defined by lra. reflexivity.
Qed.

(** Force falloff away from the force origin: no displacement beyond the
    radius or while the mouse is not pressed. *)
Lemma applyMouseForce_falloff (p m : vec3) (active force radius dt : R) :
  0 < radius -> p <> m ->
  radius <= dist m p \/ active = 0 ->
  applyMouseForce p m active force radius dt = Some vzero.
Proof.
  intros Hr Hne Hcase.
  rewrite applyMouseForce_defined by (try lra; assumption).
  assert (Hinf : active * Rmax (1 - dist m p / radius) 0 = 0).
  { destruct Hcase as [Hfar | Hoff].
    - rewrite Rmax_right; [ring |].
      assert (1 <= dist m p / radius).
      { apply Rmult_le_reg_r with radius; [exact Hr |].
        unfold Rdiv. rewrite Rmult_assoc, Rinv_l by lra. lra. }
      lra.
    - rewrite Hoff. ring. }
  rewrite Hinf. unfold vneg, vscale, vzero. simpl.
  f_equal. apply vec3_eq; simpl; ring.
Qed.

(** Inside the radius, with the mouse pressed, the displacement is a positive
    multiple of the vector from the force origin to the particle. *)
Lemma applyMouseForce_repels (p m : vec3) (force radius dt : R) :
  p <> m -> dist m p < radius -> 0 < force -> 0 < dt ->
  exists k,
    0 < k /\
    applyMouseForce p m 1 force radius dt = Some (vscale (vsub p m) k) /\
    vscale (vsub p m) k <> vzero.
Proof.
  intros Hne Hin Hf Hdt.
  pose proof (length_pos p m Hne) as Hl. fold (dist m p) in Hl.
  assert (Hr : 0 < radius) by lra.
  assert (Hq : dist m p / radius < 1).
  { apply Rmult_lt_reg_r with radius; [exact Hr |].
    unfold Rdiv. rewrite Rmult_assoc, Rinv_l by lra. lra. }
  exists (force * (1 - dist m p / radius) * dt / dist m p).
  assert (Hk : 0 < force * (1 - dist m p / radius) * dt / dist m p).
  { apply Rdiv_lt_0_compat; [| exact Hl].
    apply Rmult_lt_0_compat; [| exact Hdt].
    apply Rmult_lt_0_compat; lra. }
  split; [exact Hk | split].
  - rewrite applyMouseForce_defined by (try lra; assumption).
    rewrite Rmax_left by lra.
    f_equal. unfold vneg, vscale, vsub. simpl.
    apply vec3_eq; simpl; field; lra.
  - intros Hz. apply Hne.
    apply (f_equal vx) in Hz as Hx.
    apply (f_equal vy) in Hz as Hy.
    apply (f_equal vz) in Hz as Hzz.
    unfold vscale, vsub, vzero in Hx, Hy, Hzz. simpl in Hx, Hy, Hzz.
    apply vec3_eq; nra.
Qed.

(** At the force origin [normalize] divides by a zero length. *)
Lemma applyMouseForce_at_origin (p : vec3) (active force radius dt : R) :
  applyMouseForce p p active force radius dt = None.
Proof.
  unfold applyMouseForce. cbv zeta.
  rewrite (normalize_zero_length (vsub p p)) by apply length_vsub_self.
  destruct (fdiv (length (vsub p p)) radius); reflexivity.
Qed.

(** *** The spring *)

Lemma rotateXZ_zero (p : vec3) : rotateXZ p 0 = p.
Proof.
  unfold rotateXZ. cbv zeta. rewrite cos_0, sin_0.
  apply vec3_eq; simpl; ring.
Qed.

(** With no rotation speed the rotation sub-step is the identity. *)
Lemma applyDifferentialRotation_still (p : vec3) (dt : R) :
  applyDifferentialRotation p 0 dt = Some p.
Proof.
  rewrite applyDifferentialRotation_defined.
  replace (- (0 * (1 / (planar p * 0.1 + 1)) * dt)) with 0 by ring.
  now rewrite rotateXZ_zero.
Qed.

Lemma length_vscale (v : vec3) (k : R) :
  length (vscale v k) = Rabs k * length v.
Proof.
  unfold length, vscale. simpl.
  replace (vx v * k * (vx v * k) + vy v * k * (vy v * k)
           + vz v * k * (vz v * k))
    with (Rsqr k * (vx v * vx v + vy v * vy v + vz v * vz v))
    by (unfold Rsqr; ring).
  rewrite sqrt_mult_alt by apply Rle_0_sqr.
  now rewrite sqrt_Rsqr_abs.
Qed.

(** One update with the mouse released and no rotation, away from the force
    origin: the anchor stays and the offset to it is scaled by
    [1 - strength * deltaTime]. *)
Lemma spring_step (strength : R) (c : ComputeUniforms) (p a : vec3) :
  compute_mouseActive c = 0 ->
  compute_rotationSpeed c = 0 ->
  0 < compute_mouseRadius c ->
  p <> compute_mouse c ->
  exists p',
    Galaxy.updateBody strength c (Some p) (Some a) = (Some p', Some a)
    /\ dist p' a = Rabs (1 - strength * compute_deltaTime c) * dist p a.
Proof.
  intros Hoff Hw Hr Hne.
  unfold Galaxy.updateBody. cbv zeta. cbn [bind].
  rewrite Hw, !applyDifferentialRotation_still. cbn [bind].
  rewrite applyMouseForce_falloff by (try assumption; now right).
  cbn [bind]. eexists. split; [reflexivity |].
  unfold dist. rewrite <- length_vscale. f_equal.
  unfold applySpringForce, vadd, vsub, vscale, vzero. simpl.
  apply vec3_eq; simpl; ring.
Qed.

(** Spring convergence away from the force origin: the distance to the
    anchor strictly decreases while [0 < strength * deltaTime < 1]. *)
Lemma spring_step_decreases (strength : R) (c : ComputeUniforms)
    (p a : vec3) :
  compute_mouseActive c = 0 ->
  compute_rotationSpeed c = 0 ->
  0 < compute_mouseRadius c ->
  p <> compute_mouse c ->
  p <> a ->
  0 < strength * compute_deltaTime c < 1 ->
  exists p',
    Galaxy.updateBody strength c (Some p) (Some a) = (Some p', Some a)
    /\ dist p' a < dist p a.
Proof.
  intros Hoff Hw Hr Hne Hpa Hk.
  destruct (spring_step strength c p a Hoff Hw Hr Hne) as [p' [Hstep Hd]].
  exists p'. split; [exact Hstep |].
  rewrite Hd.
  assert (Hpos : 0 < dist p a).
  { unfold dist. apply length_pos. congruence. }
  rewrite Rabs_right by lra. nra.
Qed.

(** *** The particle at the force origin *)

(** C4, at the failing input: mouse released, no rotation,
    [2 * 0.016 < 1], the particle at the force origin and its anchor one
    unit away.  The new position is indeterminate, for stars and for
    clouds, so its distance to the anchor has not decreased. *)
Theorem spring_step_at_force_origin :
  Galaxy.computeUpdate (rest_uniforms 0) (Some (Vec3 0 0 0))
                       (Some (Vec3 1 0 0))
  = (None, Some (Vec3 1 0 0))
  /\ Galaxy.cloudUpdate (rest_uniforms 0) (Some (Vec3 0 0 0))
                        (Some (Vec3 1 0 0))
     = (None, Some (Vec3 1 0 0)).
Proof.
  unfold Galaxy.computeUpdate, Galaxy.cloudUpdate, Galaxy.updateBody.
  cbv zeta. cbn [bind rest_uniforms compute_rotationSpeed compute_deltaTime
                 compute_mouse compute_mouseActive compute_mouseForce
                 compute_mouseRadius].
  rewrite !applyDifferentialRotation_still. cbn [bind].
  rewrite applyMouseForce_at_origin. cbn [bind].
  split; reflexivity.
Qed.

(** C5, at the failing input: the mouse is not pressed and the particle is
    at the force origin; the displacement is indeterminate, not zero. *)
Theorem mouse_force_inactive_at_origin :
  applyMouseForce (Vec3 0 0 0) (Vec3 0 0 0) 0 7 10 0.016 = None
  /\ applyMouseForce (Vec3 0 0 0) (Vec3 0 0 0) 0 7 10 0.016 <> Some vzero.
Proof.
  rewrite applyMouseForce_at_origin. split; [reflexivity | discriminate].
Qed.

(** C6, at the failing input: for a particle at the force origin
    [normalize] receives the zero vector, the displacement is indeterminate
    whatever the mouse state, and a particle that the rotation sub-step
    brings to the force origin gets an indeterminate position. *)
Theorem mouse_force_at_origin_indeterminate :
  forall (p : vec3) (active force radius dt w strength : R)
         (anchor : option vec3),
    normalize (vsub p p) = None
    /\ applyMouseForce p p active force radius dt = None
    /\ fst (Galaxy.updateBody strength
              {| compute_time := 0; compute_deltaTime := dt;
                 compute_mouse :=
                   rotateXZ p (- (w * (1 / (planar p * 0.1 + 1)) * dt));
                 compute_mouseActive := active;
                 compute_mouseForce := force; compute_mouseRadius := radius;
                 compute_rotationSpeed := w |}
              (Some p) anchor) = None.
Proof.
  intros p active force radius dt w strength anchor.
  split; [apply normalize_zero_length, length_vsub_self |].
  split; [apply applyMouseForce_at_origin |].
  unfold Galaxy.updateBody. cbv zeta.
  cbn [bind compute_rotationSpeed compute_deltaTime compute_mouse
       compute_mouseActive compute_mouseForce compute_mouseRadius fst].
  rewrite applyDifferentialRotation_defined. cbn [bind].
  rewrite applyMouseForce_at_origin. reflexivity.
Qed.

(** ** Hash seeds of the two populations *)

(** C7, counterexample: with the default populations (750000 stars, 5000
    clouds) star 9996 with salt 5 and cloud 0 with salt 1 draw from the same
    seed, 10001. *)
Lemma seed_streams_collide :
  (Z.of_nat (Z.to_nat 9996) < Config.starCount Main.config)%Z
  /\ (Z.of_nat 0 < Config.cloudCount Main.config)%Z
  /\ computeInit_seed (Z.to_nat 9996) + 5 = cloudInit_seed 0 + 1
  /\ hash (computeInit_seed (Z.to_nat 9996) + 5) = hash (cloudInit_seed 0 + 1).
Proof.
  assert (E : computeInit_seed (Z.to_nat 9996) + 5 = cloudInit_seed 0 + 1).
  { unfold computeInit_seed, cloudInit_seed, toFloat.
    rewrite Z2Nat.id by lia. simpl (Z.of_nat 0). lra. }
  split; [rewrite Z2Nat.id by lia; simpl; lia |].
  split; [simpl; lia |].
  split; [exact E | now rewrite E].
Qed.

(** In exact arithmetic the offset changes no drawn value: the cloud of
    index [idx] draws, salt by salt, what the star of index [idx] draws. *)
Lemma cloud_draws_are_star_draws (idx : nat) (salt : R) :
  hash (cloudInit_seed idx + salt) = hash (computeInit_seed idx + salt).
Proof.
  unfold cloudInit_seed, computeInit_seed.
  replace (toFloat idx + 10000 + salt) with (toFloat idx + salt + 10000)
    by ring.
  apply hash_period_10000.
Qed.

(** C7, amended: while the star population has at most 9996 particles, no
    star seed [i + s] ([s] in 1..5) equals a cloud seed [j + 10000 + t]
    ([t] in 1..7). *)
Theorem seed_streams_disjoint_small_population :
  forall (starCount i j : nat) (s t : Z),
    (Z.of_nat starCount <= 9996)%Z ->
    (i < starCount)%nat ->
    (1 <= s <= 5)%Z ->
    (1 <= t <= 7)%Z ->
    computeInit_seed i + IZR s <> cloudInit_seed j + IZR t.
Proof.
  intros starCount i j s t Hn Hi Hs Ht E.
  unfold computeInit_seed, cloudInit_seed, toFloat in E.
  rewrite <- !plus_IZR in E. apply eq_IZR in E.
  lia.
Qed.

Lemma seed_streams_disjoint_small_population_witness :
  computeInit_seed 2 + IZR 1 <> cloudInit_seed 0 + IZR 1.
Proof.
  apply (seed_streams_disjoint_small_population 3 2 0 1 1); lia.
Defined.

(** ** The parameter surface *)


(** C8, counterexample: setting [armCount] to zero on the running simulation
    is accepted; the uniform no longer holds the last valid value 2, and
    generation then divides by zero. *)
Lemma zero_armCount_is_accepted :
  let s := Main.galaxySimulation in
  let s' := updateUniforms (armCount_update 0) s in
  galaxy_armCount (u_galaxy (uniforms s)) = 2
  /\ galaxy_armCount (u_galaxy (uniforms s')) = 0
  /\ uniforms s' <> uniforms s
  /\ star_position (computeInit (u_galaxy (uniforms s')) 0) = None.
Proof.
  cbv zeta.
  assert (H2 : galaxy_armCount (u_galaxy (uniforms Main.galaxySimulation)) = 2)
    by reflexivity.
  assert (H0 : galaxy_armCount
                 (u_galaxy (uniforms (updateUniforms (armCount_update 0)
                                        Main.galaxySimulation))) = 0)
    by reflexivity.
  split; [exact H2 |]. split; [exact H0 |]. split.
  - intros E. rewrite E in H0. rewrite H2 in H0. lra.
  - apply computeInit_zero_arms. exact H0.
Qed.

(** *** Buffer allocation and how the rebuilding methods end *)

Lemma instancedArray_some {A : Type} (count : Z) (zero : A) :
  (0 <= count)%Z ->
  instancedArray count zero = Some (repeat (Some zero) (Z.to_nat count)).
Proof.
  intros H. unfold instancedArray.
  destruct (Z.ltb_spec count 0) as [Hlt | _]; [lia | reflexivity].
Qed.

Lemma instancedArray_none {A : Type} (count : Z) (zero : A) :
  (count < 0)%Z -> instancedArray count zero = None.
Proof.
  intros H. unfold instancedArray.
  destruct (Z.ltb_spec count 0) as [_ | Hge]; [reflexivity | lia].
Qed.

Lemma createGalaxySystem_normal (s : GalaxySimulation) :
  (0 <= COUNT s)%Z ->
  createGalaxySystem s
  = Normal
      {| config := config s;
         COUNT := COUNT s;
         uniforms := uniforms s;
         stars :=
           Some {| star_count := Z.to_nat (COUNT s);
                   spawnPositionBuffer :=
                     repeat (Some vzero) (Z.to_nat (COUNT s));
                   originalPositionBuffer :=
                     repeat (Some vzero) (Z.to_nat (COUNT s));
                   velocityBuffer := repeat (Some vzero) (Z.to_nat (COUNT s));
                   densityFactorBuffer :=
                     repeat (Some 0) (Z.to_nat (COUNT s)) |};
         clouds := clouds s;
         initialized := initialized s;
         cloudInitialized := cloudInitialized s |}.
Proof.
  intros H. unfold createGalaxySystem.
  rewrite !instancedArray_some by exact H. reflexivity.
Qed.

Lemma createGalaxySystem_thrown (s : GalaxySimulation) :
  (COUNT s < 0)%Z -> createGalaxySystem s = Thrown s.
Proof.
  intros H. unfold createGalaxySystem.
  rewrite !instancedArray_none by exact H. reflexivity.
Qed.

Lemma createClouds_normal (s : GalaxySimulation) :
  (0 <= Config.cloudCount (config s))%Z ->
  createClouds s
  = Normal
      {| config := config s;
         COUNT := COUNT s;
         uniforms := uniforms s;
         stars := stars s;
         clouds :=
           Some {| CLOUD_COUNT := Z.to_nat (Config.cloudCount (config s));
                   cloudPositionBuffer :=
                     repeat (Some vzero)
                            (Z.to_nat (Config.cloudCount (config s)));
                   cloudOriginalPositionBuffer :=
                     repeat (Some vzero)
                            (Z.to_nat (Config.cloudCount (config s)));
                   cloudColorBuffer :=
                     repeat (Some vzero)
                            (Z.to_nat (Config.cloudCount (config s)));
                   cloudSizeBuffer :=
                     repeat (Some 0)
                            (Z.to_nat (Config.cloudCount (config s)));
                   cloudRotationBuffer :=
                     repeat (Some 0)
                            (Z.to_nat (Config.cloudCount (config s))) |};
         initialized := initialized s;
         cloudInitialized := false |}.
Proof.
  intros H. unfold createClouds. cbv zeta.
  rewrite !instancedArray_some by exact H. reflexivity.
Qed.

Lemma createClouds_thrown (s : GalaxySimulation) :
  (Config.cloudCount (config s) < 0)%Z -> createClouds s = Thrown s.
Proof.
  intros H. unfold createClouds. cbv zeta.
  rewrite !instancedArray_none by exact H. reflexivity.
Qed.

(** C8, amended: the parameter-setting operations validate nothing.  Every
    value given for [armCount] or [galaxyRadius] is stored in its uniform,
    and every [newCount] is stored in [COUNT] and in the configuration; a
    negative [newCount] then makes the buffer allocation throw, with the
    count left stored, the buffers and the flags as they were; and an arm
    count of zero makes every generated star position indeterminate. *)
Theorem parameters_stored_unvalidated :
  forall (s : GalaxySimulation) (configUpdate : Update.t)
         (arms radius : R) (newCount : Z),
    Update.armCount configUpdate = Some arms ->
    Update.galaxyRadius configUpdate = Some radius ->
    galaxy_armCount (u_galaxy (uniforms (updateUniforms configUpdate s)))
    = arms
    /\ galaxy_radius (u_galaxy (uniforms (updateUniforms configUpdate s)))
       = radius
    /\ COUNT (state_of (updateStarCount newCount s)) = newCount
    /\ Config.starCount (config (state_of (updateStarCount newCount s)))
       = newCount
    /\ ((newCount < 0)%Z ->
        exists s1,
          updateStarCount newCount s = Thrown s1
          /\ stars s1 = stars s
          /\ clouds s1 = clouds s
          /\ uniforms s1 = uniforms s
          /\ initialized s1 = initialized s
          /\ cloudInitialized s1 = cloudInitialized s)
    /\ ((0 <= newCount)%Z ->
        exists s1 st,
          updateStarCount newCount s = Normal s1
          /\ stars s1 = Some st
          /\ star_count st = Z.to_nat newCount
          /\ initialized s1 = false)
    /\ (arms = 0 ->
        forall idx,
          star_position
            (computeInit (u_galaxy (uniforms (updateUniforms configUpdate s)))
                         idx) = None).
Proof.
  intros s configUpdate arms radius newCount Ha Hr.
  assert (E : galaxy_armCount
                (u_galaxy (uniforms (updateUniforms configUpdate s))) = arms).
  { unfold updateUniforms. cbv zeta. simpl. now rewrite Ha. }
  split; [exact E |].
  split; [unfold updateUniforms; cbv zeta; simpl; now rewrite Hr |].
  assert (Hneg : (newCount < 0)%Z ->
            exists s1,
              updateStarCount newCount s = Thrown s1
              /\ COUNT s1 = newCount
              /\ Config.starCount (config s1) = newCount
              /\ stars s1 = stars s
              /\ clouds s1 = clouds s
              /\ uniforms s1 = uniforms s
              /\ initialized s1 = initialized s
              /\ cloudInitialized s1 = cloudInitialized s).
  { intros Hlt. unfold updateStarCount. cbv zeta.
    rewrite createGalaxySystem_thrown by exact Hlt.
    eexists. split; [reflexivity |]. repeat split. }
  assert (Hpos : (0 <= newCount)%Z ->
            exists s1 st,
              updateStarCount newCount s = Normal s1
              /\ COUNT s1 = newCount
              /\ Config.starCount (config s1) = newCount
              /\ stars s1 = Some st
              /\ star_count st = Z.to_nat newCount
              /\ initialized s1 = false).
  { intros Hge. unfold updateStarCount. cbv zeta.
    rewrite createGalaxySystem_normal by exact Hge.
    eexists. eexists. split; [reflexivity |]. repeat split. }
  assert (Hstored :
            COUNT (state_of (updateStarCount newCount s)) = newCount
            /\ Config.starCount (config (state_of (updateStarCount newCount s)))
               = newCount).
  { destruct (Z.lt_ge_cases newCount 0) as [Hlt | Hge].
    - destruct (Hneg Hlt) as [s1 [E1 [Hc [Hs _]]]]. rewrite E1.
      split; assumption.
    - destruct (Hpos Hge) as [s1 [st [E1 [Hc [Hs _]]]]]. rewrite E1.
      split; assumption. }
  split; [exact (proj1 Hstored) |].
  split; [exact (proj2 Hstored) |].
  split.
  { intros Hlt. destruct (Hneg Hlt) as [s1 [E1 [_ [_ H]]]].
    exists s1. split; [exact E1 | exact H]. }
  split.
  { intros Hge. destruct (Hpos Hge) as [s1 [st [E1 [_ [_ H]]]]].
    exists s1, st. split; [exact E1 | exact H]. }
  intros Hz idx. apply computeInit_zero_arms. now rewrite E.
Qed.

Lemma parameters_stored_unvalidated_witness :
  galaxy_armCount
    (u_galaxy (uniforms (updateUniforms malformed_update
                           (constructor Main.config)))) = 0
  /\ galaxy_radius
       (u_galaxy (uniforms (updateUniforms malformed_update
                              (constructor Main.config)))) = -1
  /\ COUNT (state_of (updateStarCount (-5) (constructor Main.config)))
     = (-5)%Z
  /\ (exists s1,
        updateStarCount (-5) (constructor Main.config) = Thrown s1
        /\ stars s1 = None)
  /\ star_position
       (computeInit
          (u_galaxy (uniforms (updateUniforms malformed_update
                                 (constructor Main.config)))) 0) = None.
Proof.
  destruct (parameters_stored_unvalidated (constructor Main.config)
              malformed_update 0 (-1) (-5)%Z eq_refl eq_refl)
    as [Ha [Hr [Hc [_ [Hthrow [_ Hgen]]]]]].
  split; [exact Ha | split; [exact Hr | split; [exact Hc |]]].
  split.
  - destruct (Hthrow ltac:(lia)) as [s1 [E [Hs _]]].
    exists s1. split; [exact E | exact Hs].
  - exact (Hgen eq_refl 0%nat).
Defined.

(** ** Regeneration *)

Lemma runComputeInit_all (g : GalaxyUniforms) (st : StarSystem) :
  spawnPositionBuffer (runComputeInit g st)
  = map (fun idx => star_position (computeInit g idx)) (seq 0 (star_count st))
  /\ originalPositionBuffer (runComputeInit g st)
     = spawnPositionBuffer (runComputeInit g st)
  /\ List.length (spawnPositionBuffer (runComputeInit g st)) = star_count st.
Proof.
  unfold runComputeInit. cbv zeta. simpl.
  rewrite map_map. split; [reflexivity | split; [reflexivity |]].
  now rewrite length_map, length_seq.
Qed.






(** [updateUniforms] alone does not touch the initialisation flags: the
    transition is made by [regenerate] and [createClouds] in the callback. *)
Lemma updateUniforms_keeps_flags (configUpdate : Update.t)
    (s : GalaxySimulation) :
  initialized (updateUniforms configUpdate s) = initialized s
  /\ cloudInitialized (updateUniforms configUpdate s) = cloudInitialized s.
Proof. split; reflexivity. Qed.


(** ** Further properties of the placement kernels *)

Lemma hash_range (s : R) : 0 <= hash s < 1.
Proof. unfold hash. apply fract_range. Qed.

Lemma pow_hash_below_one (s y : R) :
  0 < y -> exists v, pow (hash s) y = Some v /\ 0 <= v < 1.
Proof.
  intros Hy. pose proof (hash_range s) as Hh. unfold pow.
  destruct (Rlt_dec 0 (hash s)) as [Hpos | Hnpos].
  - exists (Rpower (hash s) y). split; [reflexivity |].
    unfold Rpower. split; [left; apply exp_pos |].
    rewrite <- exp_0. apply exp_increasing.
    assert (Hln : ln (hash s) < 0).
    { rewrite <- ln_1. apply ln_increasing; lra. }
    nra.
  - destruct (Req_dec_T (hash s) 0) as [E | N]; [| lra].
    destruct (Rlt_dec 0 y) as [_ | Hn]; [| contradiction].
    exists 0. split; [reflexivity | lra].
Qed.

Lemma floor_scaled_index (h : R) (n : Z) :
  0 <= h < 1 -> (1 <= n)%Z ->
  (0 <= Zfloor (h * IZR n) < n)%Z.
Proof.
  intros Hh Hn.
  assert (HnR : 1 <= IZR n) by (apply IZR_le in Hn; exact Hn).
  pose proof (Zfloor_bound (h * IZR n)) as Hb.
  split.
  - apply Zfloor_lub. simpl. nra.
  - apply lt_IZR. nra.
Qed.

(** The star position in polar form, with the arm index made explicit. *)
Lemma computeInit_explicit (g : GalaxyUniforms) (idx : nat) (n : Z) :
  galaxy_armCount g = IZR n -> (1 <= n)%Z -> galaxy_radius g <> 0 ->
  exists r0 k,
    pow (hash (computeInit_seed idx + 1)) 0.5 = Some r0 /\ 0 <= r0 < 1 /\
    (0 <= k < n)%Z /\
    star_position (computeInit g idx)
    = Some (Vec3
        (cos (IZR k * 6.28318 / IZR n
              + r0 * galaxy_spiralTightness g * 6.28318
              + (hash (computeInit_seed idx + 3) - 0.5) * galaxy_randomness g)
         * (r0 * galaxy_radius g
            + (hash (computeInit_seed idx + 4) - 0.5) * galaxy_armWidth g))
        ((hash (computeInit_seed idx + 5) - 0.5) * galaxy_thickness g
         * (1 - r0 + 0.2))
        (sin (IZR k * 6.28318 / IZR n
              + r0 * galaxy_spiralTightness g * 6.28318
              + (hash (computeInit_seed idx + 3) - 0.5) * galaxy_randomness g)
         * (r0 * galaxy_radius g
            + (hash (computeInit_seed idx + 4) - 0.5) * galaxy_armWidth g))).
Proof.
  intros Harm Hn Hrad.
  destruct (pow_hash_below_one (computeInit_seed idx + 1) 0.5)
    as [r0 [Hp H0]]; [lra |].
  exists r0, (Zfloor (hash (computeInit_seed idx + 2) * IZR n)).
  split; [exact Hp | split; [exact H0 | split]].
  - apply floor_scaled_index; [apply hash_range | exact Hn].
  - assert (HnR : IZR n <> 0) by (apply not_0_IZR; lia).
    unfold computeInit. cbv zeta. rewrite Hp, Harm.
    cbn [bind star_position]. unfold floor.
    rewrite !fdiv_some by assumption. cbn [bind].
    replace (r0 * galaxy_radius g / galaxy_radius g) with r0
      by (field; exact Hrad).
    reflexivity.
Qed.

Lemma cloudInit_explicit (g : GalaxyUniforms) (v : VisualUniforms)
    (idx : nat) (n : Z) :
  galaxy_armCount g = IZR n -> (1 <= n)%Z -> galaxy_radius g <> 0 ->
  exists r0 k,
    pow (hash (cloudInit_seed idx + 1)) 0.7 = Some r0 /\ 0 <= r0 < 1 /\
    (0 <= k < n)%Z /\
    cloud_position (cloudInit g v idx)
    = Some (Vec3
        (cos (IZR k * 6.28318 / IZR n
              + r0 * galaxy_spiralTightness g * 6.28318
              + (hash (cloudInit_seed idx + 3) - 0.5) * galaxy_randomness g)
         * (r0 * galaxy_radius g
            + (hash (cloudInit_seed idx + 4) - 0.5) * galaxy_armWidth g))
        ((hash (cloudInit_seed idx + 5) - 0.5) * galaxy_thickness g
         * (1 - r0 + 0.15))
        (sin (IZR k * 6.28318 / IZR n
              + r0 * galaxy_spiralTightness g * 6.28318
              + (hash (cloudInit_seed idx + 3) - 0.5) * galaxy_randomness g)
         * (r0 * galaxy_radius g
            + (hash (cloudInit_seed idx + 4) - 0.5) * galaxy_armWidth g))).
Proof.
  intros Harm Hn Hrad.
  destruct (pow_hash_below_one (cloudInit_seed idx + 1) 0.7)
    as [r0 [Hp H0]]; [lra |].
  exists r0, (Zfloor (hash (cloudInit_seed idx + 2) * IZR n)).
  split; [exact Hp | split; [exact H0 | split]].
  - apply floor_scaled_index; [apply hash_range | exact Hn].
  - assert (HnR : IZR n <> 0) by (apply not_0_IZR; lia).
    unfold cloudInit. cbv zeta. rewrite Hp, Harm.
    cbn [bind cloud_position]. unfold floor.
    rewrite !fdiv_some by assumption. cbn [bind].
    replace (r0 * galaxy_radius g / galaxy_radius g) with r0
      by (field; exact Hrad).
    reflexivity.
Qed.

Lemma hash_centered (s : R) : Rabs (hash s - 0.5) <= 0.5.
Proof.
  pose proof (hash_range s) as H. apply Rabs_le. lra.
Qed.

(** X1: every generated star and cloud lies inside the disc: its planar
    distance from the centre is below [galaxyRadius + armWidth / 2], and its
    height is at most [0.6 * thickness] for a star and [0.575 * thickness]
    for a cloud (half of the thickness factor 1.2, resp. 1.15, at the
    centre). *)
Theorem placement_inside_disc :
  forall (g : GalaxyUniforms) (v : VisualUniforms) (idx : nat) (n : Z),
    galaxy_armCount g = IZR n -> (1 <= n)%Z ->
    0 < galaxy_radius g -> 0 <= galaxy_armWidth g ->
    0 <= galaxy_thickness g ->
    (exists pos,
       star_position (computeInit g idx) = Some pos
       /\ planar pos < galaxy_radius g + galaxy_armWidth g / 2
       /\ Rabs (vy pos) <= 0.6 * galaxy_thickness g)
    /\
    (exists pos,
       cloud_position (cloudInit g v idx) = Some pos
       /\ planar pos < galaxy_radius g + galaxy_armWidth g / 2
       /\ Rabs (vy pos) <= 0.575 * galaxy_thickness g).
Proof.
  intros g v idx n Harm Hn Hrad Hw Ht.
  assert (Hrad' : galaxy_radius g <> 0) by lra.
  split.
  - destruct (computeInit_explicit g idx n Harm Hn Hrad')
      as [r0 [k [_ [H0 [_ Hpos]]]]].
    eexists. split; [exact Hpos |].
    pose proof (hash_range (computeInit_seed idx + 4)) as H4.
    pose proof (hash_range (computeInit_seed idx + 5)) as H5.
    split.
    + rewrite planar_polar. apply Rabs_def1; nra.
    + simpl.
      assert (Hf : 0 <= galaxy_thickness g * (1 - r0 + 0.2)
                   <= 1.2 * galaxy_thickness g) by nra.
      rewrite Rmult_assoc. apply Rabs_le. nra.
  - destruct (cloudInit_explicit g v idx n Harm Hn Hrad')
      as [r0 [k [_ [H0 [_ Hpos]]]]].
    eexists. split; [exact Hpos |].
    pose proof (hash_range (cloudInit_seed idx + 4)) as H4.
    pose proof (hash_range (cloudInit_seed idx + 5)) as H5.
    split.
    + rewrite planar_polar. apply Rabs_def1; nra.
    + simpl.
      assert (Hf : 0 <= galaxy_thickness g * (1 - r0 + 0.15)
                   <= 1.15 * galaxy_thickness g) by nra.
      rewrite Rmult_assoc. apply Rabs_le. nra.
Qed.

Lemma placement_inside_disc_witness :
  exists pos,
    star_position (computeInit (u_galaxy (initializeUniforms Main.config)) 7)
    = Some pos
    /\ planar pos < 13 + 2.25 / 2
    /\ Rabs (vy pos) <= 0.6 * 3.
Proof.
  assert (Ht : or_default 3 0.1 = 3).
  { unfold or_default. destruct (Req_dec_T 3 0); [lra | reflexivity]. }
  destruct (placement_inside_disc (u_galaxy (initializeUniforms Main.config))
              (u_visual (initializeUniforms Main.config)) 7 2 eq_refl)
    as [[pos [Hp [Hd Hy]]] _];
    try (simpl; rewrite ?Ht; lra); [lia |].
  exists pos. simpl in Hd, Hy. rewrite Ht in Hy.
  split; [exact Hp | split; [exact Hd | exact Hy]].
Defined.



Lemma sparsity_ratio (h w : R) :
  0 <= h < 1 -> 0 <= w ->
  0 <= Rabs ((h - 0.5) * w) / (w * 0.5 + 0.01) < 1.
Proof.
  intros Hh Hw.
  assert (Hd : 0 < w * 0.5 + 0.01) by lra.
  assert (Ha : Rabs ((h - 0.5) * w) <= 0.5 * w).
  { apply Rabs_le. nra. }
  pose proof (Rabs_pos ((h - 0.5) * w)) as Hp.
  split.
  - apply Rmult_le_pos; [exact Hp | left; apply Rinv_0_lt_compat; exact Hd].
  - apply Rmult_lt_reg_r with (w * 0.5 + 0.01); [exact Hd |].
    unfold Rdiv. rewrite Rmult_assoc, Rinv_l by lra. lra.
Qed.

Lemma computeInit_density (g : GalaxyUniforms) (idx : nat) :
  0 <= galaxy_armWidth g -> 0 <= galaxy_randomness g ->
  exists d,
    star_density (computeInit g idx) = Some d
    /\ 0 <= d < 1
    /\ d = (Rabs ((hash (computeInit_seed idx + 4) - 0.5) * galaxy_armWidth g)
              / (galaxy_armWidth g * 0.5 + 0.01)
            + Rabs ((hash (computeInit_seed idx + 3) - 0.5)
                    * galaxy_randomness g)
              / (galaxy_randomness g * 0.5 + 0.01)) * 0.5.
Proof.
  intros Hw Hr.
  pose proof (sparsity_ratio (hash (computeInit_seed idx + 4))
                (galaxy_armWidth g) (hash_range _) Hw) as Ha.
  pose proof (sparsity_ratio (hash (computeInit_seed idx + 3))
                (galaxy_randomness g) (hash_range _) Hr) as Hb.
  unfold computeInit. cbv zeta. cbn [star_density].
  rewrite !fdiv_some by lra. cbn [bind].
  eexists. split; [reflexivity |].
  rewrite Rmin_left by lra.
  split; [lra | reflexivity].
Qed.

(** X3: for an arm width and a randomness that are not negative the density
    factor of a star is defined, whatever the other parameters (even when
    the position is not), and lies in [0,1): the [+ 0.01] keeps the divisors
    away from zero and the clamp [min(1.0)] never acts. *)
Theorem star_density_in_unit_interval :
  forall (g : GalaxyUniforms) (idx : nat),
    0 <= galaxy_armWidth g -> 0 <= galaxy_randomness g ->
    exists d,
      star_density (computeInit g idx) = Some d
      /\ 0 <= d < 1
      /\ d = (Rabs ((hash (computeInit_seed idx + 4) - 0.5) * galaxy_armWidth g)
                / (galaxy_armWidth g * 0.5 + 0.01)
              + Rabs ((hash (computeInit_seed idx + 3) - 0.5)
                      * galaxy_randomness g)
                / (galaxy_randomness g * 0.5 + 0.01)) * 0.5.
Proof.
  intros g idx Hw Hr. exact (computeInit_density g idx Hw Hr).
Qed.

Lemma star_density_in_unit_interval_witness :
  exists d,
    star_density (computeInit (u_galaxy (initializeUniforms Main.config)) 0)
    = Some d
    /\ 0 <= d < 1.
Proof.
  destruct (star_density_in_unit_interval
              (u_galaxy (initializeUniforms Main.config)) 0)
    as [d [Hd [Hr _]]]; try (simpl; lra).
  exists d. split; [exact Hd | exact Hr].
Defined.

(** An arm width of -0.02 makes the divisor of the radial sparsity zero. *)
Lemma star_density_divisor_zero (g : GalaxyUniforms) (idx : nat) :
  galaxy_armWidth g = -0.02 -> star_density (computeInit g idx) = None.
Proof.
  intros H. unfold computeInit. cbv zeta. cbn [star_density].
  rewrite H. replace (-0.02 * 0.5 + 0.01) with 0 by lra.
  rewrite fdiv_zero. reflexivity.
Qed.

(** X4: the orbital velocity stored for a star is horizontal and
    perpendicular to the star's planar position, with speed
    [5 / |r + 0.5|] where [r] is the star's offset radius; when
    [r + 0.5 = 0] the division is by zero and the velocity is
    indeterminate. *)
Theorem star_velocity_tangential :
  forall (g : GalaxyUniforms) (idx : nat),
    galaxy_armCount g <> 0 -> galaxy_radius g <> 0 ->
    exists r0 pos,
      pow (hash (computeInit_seed idx + 1)) 0.5 = Some r0 /\
      star_position (computeInit g idx) = Some pos /\
      let r := r0 * galaxy_radius g
               + (hash (computeInit_seed idx + 4) - 0.5) * galaxy_armWidth g in
      planar pos = Rabs r
      /\ (r + 0.5 <> 0 ->
          exists vel,
            star_velocity (computeInit g idx) = Some vel
            /\ vy vel = 0
            /\ vx pos * vx vel + vz pos * vz vel = 0
            /\ length vel * Rabs (r + 0.5) = 5)
      /\ (r + 0.5 = 0 -> star_velocity (computeInit g idx) = None).
Proof.
  intros g idx Harm Hrad.
  destruct (pow_hash (computeInit_seed idx + 1) 0.5) as [r0 [Hp H0]]; [lra |].
  exists r0. eexists. split; [exact Hp |].
  unfold computeInit. cbv zeta. rewrite Hp. cbn [bind star_position star_velocity].
  rewrite !(fdiv_some _ (galaxy_armCount g)) by assumption.
  rewrite !(fdiv_some _ (galaxy_radius g)) by assumption.
  cbn [bind].
  split; [reflexivity |].
  split; [apply planar_polar | split].
  - intros Hne. rewrite !fdiv_some by exact Hne. cbn [bind].
    eexists. split; [reflexivity |].
    split; [reflexivity |].
    split; [simpl; ring |].
    unfold length. simpl.
    match goal with
    | |- sqrt (- (sin ?a * ?o) * - (sin ?a * ?o) + 0 * 0
               + cos ?a * ?o * (cos ?a * ?o)) * _ = _ =>
        replace (- (sin a * o) * - (sin a * o) + 0 * 0
                 + cos a * o * (cos a * o))
          with (cos a * o * (cos a * o) + sin a * o * (sin a * o)) by ring;
        rewrite (polar_square a o), sqrt_Rsqr_abs
    end.
    rewrite <- Rabs_mult.
    match goal with
    | |- Rabs ?e = 5 => replace e with 5 by (field; exact Hne)
    end.
    apply Rabs_right. lra.
  - intros Hz. rewrite Hz, fdiv_zero. cbn [bind]. reflexivity.
Qed.

Lemma star_velocity_tangential_witness :
  exists pos vel,
    star_position (computeInit scenario_uniforms 0) = Some pos
    /\ star_velocity (computeInit scenario_uniforms 0) = Some vel
    /\ vx pos * vx vel + vz pos * vz vel = 0.
Proof.
  destruct (star_velocity_tangential scenario_uniforms 0)
    as [r0 [pos [Hp [Hpos [_ [Hvel _]]]]]]; try (simpl; lra).
  destruct (pow_hash (computeInit_seed 0 + 1) 0.5) as [r1 [Hp1 H1]]; [lra |].
  rewrite Hp in Hp1. injection Hp1 as E. subst r1.
  destruct Hvel as [vel [Hv [_ [Hdot _]]]]; [simpl; nra |].
  exists pos, vel. split; [exact Hpos | split; [exact Hv | exact Hdot]].
Defined.

(** X5: the attributes of a generated cloud need only a radius that is not
    zero (the arm count plays no part): the size factor lies strictly
    between 0.35 and 1.2, the rotation in [0, 6.28318), and the colour is
    the tint scaled by a factor in (0.7, 1]. *)
Theorem cloud_attributes_ranges :
  forall (g : GalaxyUniforms) (v : VisualUniforms) (idx : nat),
    galaxy_radius g <> 0 ->
    exists size rotation k,
      cloud_size (cloudInit g v idx) = Some size
      /\ 0.35 < size < 1.2
      /\ cloud_rotation (cloudInit g v idx) = Some rotation
      /\ 0 <= rotation < 6.28318
      /\ cloud_color (cloudInit g v idx)
         = Some (vscale (visual_cloudTintColor v) k)
      /\ 0.7 < k <= 1.
Proof.
  intros g v idx Hrad.
  destruct (pow_hash_below_one (cloudInit_seed idx + 1) 0.7)
    as [r0 [Hp H0]]; [lra |].
  pose proof (hash_range (cloudInit_seed idx + 6)) as H6.
  pose proof (hash_range (cloudInit_seed idx + 7)) as H7.
  unfold cloudInit. cbv zeta. rewrite Hp.
  cbn [bind cloud_size cloud_rotation cloud_color].
  rewrite !fdiv_some by assumption. cbn [bind].
  replace (r0 * galaxy_radius g / galaxy_radius g) with r0
    by (field; exact Hrad).
  do 3 eexists.
  split; [reflexivity |]. split; [nra |].
  split; [reflexivity |]. split; [nra |].
  split; [reflexivity | lra].
Qed.

Lemma cloud_attributes_ranges_witness :
  exists size,
    cloud_size (cloudInit (u_galaxy (initializeUniforms Main.config))
                          (u_visual (initializeUniforms Main.config)) 4)
    = Some size
    /\ 0.35 < size < 1.2.
Proof.
  destruct (cloud_attributes_ranges
              (u_galaxy (initializeUniforms Main.config))
              (u_visual (initializeUniforms Main.config)) 4)
    as [size [rot [k [Hs [Hr _]]]]]; [simpl; lra |].
  exists size. split; [exact Hs | exact Hr].
Defined.

(** X6: the colour of a star is a blend of the dense and the sparse colour:
    for parameters that are not negative it is defined, and with a
    brightness that is not negative each channel lies between the two
    colours' channels times the brightness. *)
Theorem star_colour_between_dense_and_sparse :
  forall (g : GalaxyUniforms) (v : VisualUniforms) (idx : nat),
    0 <= galaxy_armWidth g -> 0 <= galaxy_randomness g ->
    0 <= visual_starBrightness v ->
    exists col,
      starColorNode v (star_density (computeInit g idx)) = Some col
      /\ Rmin (vx (visual_denseStarColor v)) (vx (visual_sparseStarColor v))
         * visual_starBrightness v
         <= vx col
         <= Rmax (vx (visual_denseStarColor v)) (vx (visual_sparseStarColor v))
            * visual_starBrightness v
      /\ Rmin (vy (visual_denseStarColor v)) (vy (visual_sparseStarColor v))
         * visual_starBrightness v
         <= vy col
         <= Rmax (vy (visual_denseStarColor v)) (vy (visual_sparseStarColor v))
            * visual_starBrightness v
      /\ Rmin (vz (visual_denseStarColor v)) (vz (visual_sparseStarColor v))
         * visual_starBrightness v
         <= vz col
         <= Rmax (vz (visual_denseStarColor v)) (vz (visual_sparseStarColor v))
            * visual_starBrightness v.
Proof.
  intros g v idx Hw Hr Hb.
  destruct (computeInit_density g idx Hw Hr) as [d [Hd [Hrange _]]].
  rewrite Hd. unfold starColorNode, mix. cbn [bind].
  eexists. split; [reflexivity |].
  assert (Hblend : forall a b : R,
             Rmin a b * visual_starBrightness v
             <= (a * (1 - d) + b * d) * visual_starBrightness v
             <= Rmax a b * visual_starBrightness v).
  { intros a b.
    assert (Rmin a b <= a * (1 - d) + b * d <= Rmax a b).
    { pose proof (Rmin_l a b). pose proof (Rmin_r a b).
      pose proof (Rmax_l a b). pose proof (Rmax_r a b).
      split; nra. }
    split; apply Rmult_le_compat_r; lra. }
  simpl. repeat split; apply Hblend.
Qed.

Lemma star_colour_between_dense_and_sparse_witness :
  exists col,
    starColorNode (u_visual (initializeUniforms Main.config))
      (star_density (computeInit (u_galaxy (initializeUniforms Main.config)) 0))
    = Some col
    /\ vz col <= 1 * 0.3.
Proof.
  destruct (star_colour_between_dense_and_sparse
              (u_galaxy (initializeUniforms Main.config))
              (u_visual (initializeUniforms Main.config)) 0)
    as [col [Hc [_ [_ [_ Hz]]]]]; try (simpl; lra).
  exists col. split; [exact Hc |].
  simpl in Hz. rewrite Rmax_left in Hz by lra. exact Hz.
Defined.

(** ** Further properties of the update kernels *)

Lemma rotateXZ_add (p : vec3) (x y : R) :
  rotateXZ (rotateXZ p x) y = rotateXZ p (x + y).
Proof.
  unfold rotateXZ. cbv zeta. simpl.
  rewrite cos_plus, sin_plus. apply vec3_eq; simpl; ring.
Qed.

(** X7: rotations about the vertical axis compose by adding their angles;
    in particular the opposite angle undoes a rotation and a zero angle
    changes nothing. *)
Theorem rotateXZ_composes :
  forall (p : vec3) (a b : R),
    rotateXZ (rotateXZ p a) b = rotateXZ p (a + b)
    /\ rotateXZ (rotateXZ p a) (- a) = p
    /\ rotateXZ p 0 = p.
Proof.
  intros p a b.
  split; [apply rotateXZ_add | split; [| apply rotateXZ_zero]].
  rewrite rotateXZ_add. replace (a + - a) with 0 by ring.
  apply rotateXZ_zero.
Qed.

(** X8: differential rotation is [rotateXZ] by minus the angle
    [rotationSpeed * deltaTime / (0.1 * d + 1)], [d] being the planar
    distance of the point: for a positive [rotationSpeed * deltaTime] the
    angle is positive, at most [rotationSpeed * deltaTime], and strictly
    smaller for the point farther from the centre. *)
Theorem differential_rotation_slower_outside :
  forall (p q : vec3) (w dt : R),
    0 < w * dt ->
    planar p < planar q ->
    let angle := fun d : R => w * dt / (0.1 * d + 1) in
    applyDifferentialRotation p w dt = Some (rotateXZ p (- angle (planar p)))
    /\ applyDifferentialRotation q w dt = Some (rotateXZ q (- angle (planar q)))
    /\ 0 < angle (planar q) < angle (planar p)
    /\ angle (planar p) <= w * dt.
Proof.
  intros p q w dt Hw Hpq angle.
  pose proof (planar_nonneg p) as Hp.
  pose proof (planar_nonneg q) as Hq.
  assert (Heq : forall r : vec3,
             applyDifferentialRotation r w dt
             = Some (rotateXZ r (- angle (planar r)))).
  { intros r. rewrite applyDifferentialRotation_defined.
    pose proof (planar_nonneg r) as Hr.
    do 2 f_equal. unfold angle. field. lra. }
  split; [apply Heq | split; [apply Heq |]].
  unfold angle.
  assert (Hdp : 0 < 0.1 * planar p + 1) by lra.
  assert (Hdq : 0 < 0.1 * planar q + 1) by lra.
  assert (Hinv : / (0.1 * planar q + 1) < / (0.1 * planar p + 1)).
  { apply Rinv_lt_contravar; [nra | lra]. }
  assert (Hinvq : 0 < / (0.1 * planar q + 1))
    by (apply Rinv_0_lt_compat; exact Hdq).
  assert (Hinvp : / (0.1 * planar p + 1) <= 1).
  { rewrite <- Rinv_1. apply Rinv_le_contravar; lra. }
  unfold Rdiv. repeat split; nra.
Qed.

Lemma differential_rotation_slower_outside_witness :
  applyDifferentialRotation (Vec3 1 0 0) 0.1 0.016
  = Some (rotateXZ (Vec3 1 0 0)
            (- (0.1 * 0.016 / (0.1 * planar (Vec3 1 0 0) + 1)))).
Proof.
  assert (H1 : planar (Vec3 1 0 0) = 1).
  { unfold planar. simpl. replace (1 * 1 + 0 * 0) with 1 by ring.
    apply sqrt_1. }
  assert (H2 : planar (Vec3 2 0 0) = 2).
  { unfold planar. simpl. replace (2 * 2 + 0 * 0) with (2 * 2) by ring.
    apply sqrt_square. lra. }
  destruct (differential_rotation_slower_outside (Vec3 1 0 0) (Vec3 2 0 0)
              0.1 0.016) as [Hp _]; [lra | rewrite H1, H2; lra |].
  exact Hp.
Defined.

Lemma length_normalized (v : vec3) :
  length v <> 0 ->
  length (Vec3 (vx v / length v) (vy v / length v) (vz v / length v)) = 1.
Proof.
  intros Hl.
  assert (Hsq : length v * length v
                = vx v * vx v + vy v * vy v + vz v * vz v).
  { unfold length. apply sqrt_sqrt.
    pose proof (Rle_0_sqr (vx v)). pose proof (Rle_0_sqr (vy v)).
    pose proof (Rle_0_sqr (vz v)). unfold Rsqr in *. lra. }
  unfold length at 1. simpl.
  replace (vx v / length v * (vx v / length v)
           + vy v / length v * (vy v / length v)
           + vz v / length v * (vz v / length v))
    with ((vx v * vx v + vy v * vy v + vz v * vz v)
          / (length v * length v)) by (field; exact Hl).
  rewrite <- Hsq. unfold Rdiv. rewrite Rinv_r; [apply sqrt_1 |].
  intros E. apply Hl. apply Rmult_integral in E. tauto.
Qed.

(** X9: away from the force origin, with a positive radius and the mouse
    flag 0 or 1, the mouse displacement has length
    [mouseForce * influence * deltaTime] with an influence between 0 and 1,
    so a frame never pushes a particle by more than
    [mouseForce * deltaTime]. *)
Theorem mouse_push_bounded :
  forall (p m : vec3) (active force radius dt : R),
    p <> m -> 0 < radius -> 0 <= force -> 0 <= dt ->
    active = 0 \/ active = 1 ->
    exists d,
      applyMouseForce p m active force radius dt = Some d
      /\ length d = force * (active * Rmax (1 - dist m p / radius) 0) * dt
      /\ 0 <= active * Rmax (1 - dist m p / radius) 0 <= 1
      /\ length d <= force * dt.
Proof.
  intros p m active force radius dt Hne Hr Hf Hdt Hact.
  pose proof (length_pos p m Hne) as Hl. fold (dist m p) in Hl.
  rewrite applyMouseForce_defined by (try lra; assumption).
  eexists. split; [reflexivity |].
  set (infl := active * Rmax (1 - dist m p / radius) 0).
  assert (Hq : 0 < dist m p / radius).
  { apply Rdiv_lt_0_compat; lra. }
  assert (Hmax : 0 <= Rmax (1 - dist m p / radius) 0 <= 1).
  { split; [apply Rmax_r | apply Rmax_lub; lra]. }
  assert (Hinfl : 0 <= infl <= 1).
  { unfold infl. destruct Hact as [-> | ->]; lra. }
  assert (Hlen :
    length (vneg (vscale (vscale (vscale
              (Vec3 (vx (vsub m p) / dist m p) (vy (vsub m p) / dist m p)
                    (vz (vsub m p) / dist m p)) force) infl) dt))
    = force * infl * dt).
  { replace (vneg (vscale (vscale (vscale
                (Vec3 (vx (vsub m p) / dist m p) (vy (vsub m p) / dist m p)
                      (vz (vsub m p) / dist m p)) force) infl) dt))
      with (vscale (Vec3 (vx (vsub m p) / dist m p)
                         (vy (vsub m p) / dist m p)
                         (vz (vsub m p) / dist m p))
                   (- (force * infl * dt)))
      by (unfold vneg, vscale; simpl; apply vec3_eq; simpl; ring).
    rewrite length_vscale. unfold dist.
    rewrite length_normalized by (fold (dist m p); lra).
    rewrite Rabs_Ropp, Rabs_right; [ring |].
    apply Rle_ge. apply Rmult_le_pos; [apply Rmult_le_pos |]; lra. }
  split; [exact Hlen |]. split; [exact Hinfl |].
  rewrite Hlen.
  assert (force * infl <= force) by nra. nra.
Qed.

Lemma mouse_push_bounded_witness :
  exists d,
    applyMouseForce (Vec3 1 0 0) (Vec3 0 0 0) 1 7 10 0.016 = Some d
    /\ length d <= 7 * 0.016.
Proof.
  assert (Hne : Vec3 1 0 0 <> Vec3 0 0 0).
  { intros E. apply (f_equal vx) in E. simpl in E. lra. }
  assert (H0 : 0 < 10) by lra.
  assert (H1 : 0 <= 7) by lra.
  assert (H2 : 0 <= 0.016) by lra.
  destruct (mouse_push_bounded (Vec3 1 0 0) (Vec3 0 0 0) 1 7 10 0.016
              Hne H0 H1 H2 (or_intror eq_refl))
    as [d [Hd [_ [_ Hb]]]].
  exists d. split; [exact Hd | exact Hb].
Defined.

(** X10: a particle that sits on its anchor rides it: with the mouse
    released and a positive mouse radius, when the rotated point is not the
    force origin, the update writes the same rotated point as position and
    as anchor, whatever the spring strength and the rotation speed. *)
Theorem particle_at_rest_follows_anchor :
  forall (strength : R) (c : ComputeUniforms) (p : vec3),
    compute_mouseActive c = 0 ->
    0 < compute_mouseRadius c ->
    rotateXZ p (- (compute_rotationSpeed c * (1 / (planar p * 0.1 + 1))
                   * compute_deltaTime c))
    <> compute_mouse c ->
    Galaxy.updateBody strength c (Some p) (Some p)
    = (Some (rotateXZ p (- (compute_rotationSpeed c
                            * (1 / (planar p * 0.1 + 1))
                            * compute_deltaTime c))),
       Some (rotateXZ p (- (compute_rotationSpeed c
                            * (1 / (planar p * 0.1 + 1))
                            * compute_deltaTime c)))).
Proof.
  intros strength c p Hoff Hr Hne.
  unfold Galaxy.updateBody. cbv zeta. cbn [bind].
  rewrite applyDifferentialRotation_defined. cbn [bind].
  rewrite Hoff.
  rewrite applyMouseForce_falloff by (try assumption; now right).
  cbn [bind]. f_equal. f_equal.
  unfold applySpringForce, vadd, vsub, vscale, vzero.
  apply vec3_eq; simpl; ring.
Qed.

Lemma particle_at_rest_follows_anchor_witness :
  Galaxy.computeUpdate (rest_uniforms 0) (Some (Vec3 1 0 0))
                       (Some (Vec3 1 0 0))
  = (Some (Vec3 1 0 0), Some (Vec3 1 0 0)).
Proof.
  assert (Hrot : rotateXZ (Vec3 1 0 0)
                   (- (0 * (1 / (planar (Vec3 1 0 0) * 0.1 + 1)) * 0.016))
                 = Vec3 1 0 0).
  { replace (- (0 * (1 / (planar (Vec3 1 0 0) * 0.1 + 1)) * 0.016))
      with 0 by ring.
    apply rotateXZ_zero. }
  assert (Hne : rotateXZ (Vec3 1 0 0)
                  (- (compute_rotationSpeed (rest_uniforms 0)
                      * (1 / (planar (Vec3 1 0 0) * 0.1 + 1))
                      * compute_deltaTime (rest_uniforms 0)))
                <> compute_mouse (rest_uniforms 0)).
  { simpl. rewrite Hrot. intros E. apply (f_equal vx) in E. simpl in E. lra. }
  assert (Hr : 0 < compute_mouseRadius (rest_uniforms 0)) by (simpl; lra).
  pose proof (particle_at_rest_follows_anchor 2 (rest_uniforms 0)
                (Vec3 1 0 0) eq_refl Hr Hne) as H.
  simpl in H. rewrite Hrot in H. exact H.
Defined.

(** X11: the frame step of the animation loop lies in (0, 0.033] whenever
    the clock has advanced, and with it the spring never overshoots: with
    the mouse released, no rotation, and the particle neither at the force
    origin nor on its anchor, one update scales the distance to the anchor
    by [1 - 2 * deltaTime] for a star and [1 - deltaTime] for a cloud, a
    factor of at least 0.934, resp. 0.967, and below 1. *)
Theorem clamped_frame_contracts_spring :
  forall (currentTime lastFrameTime t force radius : R) (m p a : vec3),
    lastFrameTime < currentTime ->
    0 < radius -> p <> m -> p <> a ->
    let dt := Main.frameDeltaTime currentTime lastFrameTime in
    let c := {| compute_time := t; compute_deltaTime := dt;
                compute_mouse := m; compute_mouseActive := 0;
                compute_mouseForce := force; compute_mouseRadius := radius;
                compute_rotationSpeed := 0 |} in
    0 < dt <= 0.033
    /\ (exists p',
          Galaxy.computeUpdate c (Some p) (Some a) = (Some p', Some a)
          /\ dist p' a = (1 - 2 * dt) * dist p a
          /\ 0.934 * dist p a <= dist p' a < dist p a)
    /\ (exists p',
          Galaxy.cloudUpdate c (Some p) (Some a) = (Some p', Some a)
          /\ dist p' a = (1 - dt) * dist p a
          /\ 0.967 * dist p a <= dist p' a < dist p a).
Proof.
  intros currentTime lastFrameTime t force radius m p a Htime Hr Hm Ha dt c.
  assert (Hdt : 0 < dt <= 0.033).
  { unfold dt, Main.frameDeltaTime. split.
    - apply Rmin_glb_lt; lra.
    - apply Rmin_r. }
  assert (Hpos : 0 < dist p a).
  { unfold dist. apply length_pos. congruence. }
  split; [exact Hdt |].
  split.
  - destruct (spring_step 2 c p a eq_refl eq_refl Hr Hm) as [p' [Hstep Hd]].
    exists p'. split; [exact Hstep |].
    simpl in Hd. rewrite Rabs_right in Hd by lra.
    split; [exact Hd | rewrite Hd; nra].
  - destruct (spring_step 1 c p a eq_refl eq_refl Hr Hm) as [p' [Hstep Hd]].
    exists p'. split; [exact Hstep |].
    simpl in Hd. rewrite Rabs_right in Hd by lra.
    replace (1 * dt) with dt in Hd by ring.
    split; [exact Hd | rewrite Hd; nra].
Qed.

Lemma clamped_frame_contracts_spring_witness :
  Main.frameDeltaTime 5000 1000 = 0.033
  /\ exists p',
       Galaxy.computeUpdate
         {| compute_time := 0;
            compute_deltaTime := Main.frameDeltaTime 5000 1000;
            compute_mouse := Vec3 0 0 0; compute_mouseActive := 0;
            compute_mouseForce := 7; compute_mouseRadius := 10;
            compute_rotationSpeed := 0 |}
         (Some (Vec3 1 0 0)) (Some (Vec3 2 0 0))
       = (Some p', Some (Vec3 2 0 0))
       /\ dist p' (Vec3 2 0 0) < dist (Vec3 1 0 0) (Vec3 2 0 0).
Proof.
  assert (Ht : 1000 < 5000) by lra.
  assert (Hr : 0 < 10) by lra.
  assert (Hm : Vec3 1 0 0 <> Vec3 0 0 0).
  { intros E. apply (f_equal vx) in E. simpl in E. lra. }
  assert (Ha : Vec3 1 0 0 <> Vec3 2 0 0).
  { intros E. apply (f_equal vx) in E. simpl in E. lra. }
  destruct (clamped_frame_contracts_spring 5000 1000 0 7 10 (Vec3 0 0 0)
              (Vec3 1 0 0) (Vec3 2 0 0) Ht Hr Hm Ha)
    as [_ [[p' [Hstep [_ [_ Hlt]]]] _]].
  split.
  - unfold Main.frameDeltaTime. apply Rmin_right. lra.
  - exists p'. split; [exact Hstep | exact Hlt].
Defined.

(** ** Further properties of the population controller *)

(** X14: placement runs once.  After one [update] of a simulation whose star
    system exists, a second [update] dispatches the update kernels only,
    leaves both flags set, and does not write the velocity and density
    buffers of the stars nor the colour, size and rotation buffers of the
    clouds. *)
Theorem placement_runs_once :
  forall (s : GalaxySimulation) (st : StarSystem) (dt1 dt2 : R)
         (m1 m2 : vec3) (b1 b2 : bool),
    stars s = Some st ->
    exists s1 t1 s2 st1 st2,
      update dt1 m1 b1 s = Some (s1, t1)
      /\ update dt2 m2 b2 s1
         = Some (s2, RunComputeUpdate
                     :: match clouds s with
                        | Some _ => [RunCloudUpdate]
                        | None => []
                        end)
      /\ initialized s1 = true /\ initialized s2 = true
      /\ stars s1 = Some st1 /\ stars s2 = Some st2
      /\ velocityBuffer st2 = velocityBuffer st1
      /\ densityFactorBuffer st2 = densityFactorBuffer st1
      /\ match clouds s1, clouds s2 with
         | Some c1, Some c2 =>
             cloudInitialized s1 = true
             /\ cloudColorBuffer c2 = cloudColorBuffer c1
             /\ cloudSizeBuffer c2 = cloudSizeBuffer c1
             /\ cloudRotationBuffer c2 = cloudRotationBuffer c1
         | None, None => clouds s = None
         | _, _ => False
         end.
Proof.
  intros s st dt1 dt2 m1 m2 b1 b2 Hst.
  unfold update. rewrite Hst. cbn [bind].
  destruct (clouds s) as [cl |]; destruct (cloudInitialized s);
    destruct (initialized s);
    cbn [stars initialized clouds cloudInitialized bind negb orb option_map
         app uniforms u_compute u_galaxy u_visual];
    do 5 eexists;
    (split; [reflexivity |]);
    (split; [reflexivity |]);
    repeat (split; [reflexivity |]);
    repeat split.
Qed.

Lemma placement_runs_once_witness :
  exists s1 t1 s2,
    update 0.016 (Vec3 0 0 0) false small_created = Some (s1, t1)
    /\ update 0.016 (Vec3 0 0 0) true s1
       = Some (s2, [RunComputeUpdate; RunCloudUpdate]).
Proof.
  destruct (placement_runs_once small_created
              _ 0.016 0.016 (Vec3 0 0 0) (Vec3 0 0 0) false true eq_refl)
    as [s1 [t1 [s2 [st1 [st2 [H1 [H2 _]]]]]]].
  exists s1, t1, s2. split; [exact H1 | exact H2].
Defined.

Lemma instancedArray_length {A : Type} (count : Z) (zero : A)
    (buffer : list (option A)) :
  instancedArray count zero = Some buffer ->
  List.length buffer = Z.to_nat count.
Proof.
  unfold instancedArray. destruct (count <? 0)%Z; [discriminate |].
  intros E. injection E as <-. apply repeat_length.
Qed.

Lemma runComputeInit_sized (g : GalaxyUniforms) (st : StarSystem) :
  star_sized (runComputeInit g st).
Proof.
  unfold star_sized, runComputeInit. cbv zeta. simpl.
  rewrite !length_map, length_seq. repeat split.
Qed.

Lemma runComputeUpdate_sized (c : ComputeUniforms) (st : StarSystem) :
  star_sized st -> star_sized (runComputeUpdate c st).
Proof.
  intros [H1 [H2 [H3 H4]]].
  unfold star_sized, runComputeUpdate. cbv zeta. simpl.
  rewrite !length_map, length_combine, H1, H2, Nat.min_id.
  repeat split; assumption.
Qed.

Lemma runCloudInit_sized (g : GalaxyUniforms) (v : VisualUniforms)
    (cl : CloudSystem) :
  cloud_sized (runCloudInit g v cl).
Proof.
  unfold cloud_sized, runCloudInit. cbv zeta. simpl.
  rewrite !length_map, length_seq. repeat split.
Qed.

Lemma runCloudUpdate_sized (c : ComputeUniforms) (cl : CloudSystem) :
  cloud_sized cl -> cloud_sized (runCloudUpdate c cl).
Proof.
  intros [H1 [H2 [H3 [H4 H5]]]].
  unfold cloud_sized, runCloudUpdate. cbv zeta. simpl.
  rewrite !length_map, length_combine, H1, H2, Nat.min_id.
  repeat split; assumption.
Qed.

(** Whether the allocation succeeds or throws, the buffers found afterwards
    are sized: the new ones, or the old ones, which are still in place. *)
Lemma createGalaxySystem_sized (s : GalaxySimulation) :
  well_sized s -> well_sized (state_of (createGalaxySystem s)).
Proof.
  intros Hw. destruct (Z.lt_ge_cases (COUNT s) 0) as [Hlt | Hge].
  - rewrite createGalaxySystem_thrown by exact Hlt. exact Hw.
  - rewrite createGalaxySystem_normal by exact Hge.
    destruct Hw as [_ Hc]. split; [| exact Hc].
    cbn [state_of stars]. unfold star_sized.
    cbn [star_count spawnPositionBuffer originalPositionBuffer velocityBuffer
         densityFactorBuffer].
    rewrite !repeat_length. repeat split.
Qed.

Lemma createClouds_sized (s : GalaxySimulation) :
  well_sized s -> well_sized (state_of (createClouds s)).
Proof.
  intros Hw.
  destruct (Z.lt_ge_cases (Config.cloudCount (config s)) 0) as [Hlt | Hge].
  - rewrite createClouds_thrown by exact Hlt. exact Hw.
  - rewrite createClouds_normal by exact Hge.
    destruct Hw as [Hs _]. split; [exact Hs |].
    cbn [state_of clouds]. unfold cloud_sized.
    cbn [CLOUD_COUNT cloudPositionBuffer cloudOriginalPositionBuffer
         cloudColorBuffer cloudSizeBuffer cloudRotationBuffer].
    rewrite !repeat_length. repeat split.
Qed.

Lemma updateStarCount_sized (n : Z) (s : GalaxySimulation) :
  well_sized s -> well_sized (state_of (updateStarCount n s)).
Proof.
  intros Hw. unfold updateStarCount. cbv zeta.
  destruct (Z.lt_ge_cases n 0) as [Hlt | Hge].
  - rewrite createGalaxySystem_thrown by exact Hlt. exact Hw.
  - rewrite createGalaxySystem_normal by exact Hge.
    destruct Hw as [_ Hc]. split; [| exact Hc].
    cbn [andThen state_of stars COUNT]. unfold star_sized.
    cbn [star_count spawnPositionBuffer originalPositionBuffer velocityBuffer
         densityFactorBuffer].
    rewrite !repeat_length. repeat split.
Qed.

Lemma update_sized (dt : R) (m : vec3) (b : bool) (s s' : GalaxySimulation)
    (t : list Dispatch) :
  well_sized s -> update dt m b s = Some (s', t) -> well_sized s'.
Proof.
  intros [Hs Hc] Hup. unfold update in Hup.
  destruct (stars s) as [st |]; [| discriminate].
  cbn [bind] in Hup. injection Hup as Hs' _. subst s'.
  split; cbn [stars clouds].
  - apply runComputeUpdate_sized.
    destruct (initialized s); cbn [negb];
      [exact Hs | apply runComputeInit_sized].
  - destruct (clouds s) as [cl |]; cbn [option_map].
    + destruct (cloudInitialized s); cbn [negb option_map];
        apply runCloudUpdate_sized; [exact Hc | apply runCloudInit_sized].
    + exact I.
Qed.

(** X15: every buffer always holds exactly one element per particle of its
    population.  This holds after the constructor and is kept by
    [createGalaxySystem], [createClouds] and [updateStarCount], whether they
    return or throw on a negative count (the old buffers are then still in
    place), by [updateUniforms], by [regenerate] and by every [update] that
    succeeds, so the update kernels, which pair the position and the anchor
    buffer index by index, never lose a particle. *)
Theorem buffers_stay_sized :
  forall (cfg : Config.t) (s : GalaxySimulation),
    well_sized (constructor cfg)
    /\ (well_sized s ->
        well_sized (state_of (createGalaxySystem s))
        /\ well_sized (state_of (createClouds s))
        /\ (forall n, well_sized (state_of (updateStarCount n s)))
        /\ (forall u, well_sized (updateUniforms u s))
        /\ well_sized (regenerate s)
        /\ (forall dt m b s' t,
              update dt m b s = Some (s', t) -> well_sized s')).
Proof.
  intros cfg s. split; [split; exact I |].
  intros Hw.
  pose proof (createGalaxySystem_sized s Hw) as Hg.
  pose proof (createClouds_sized s Hw) as Hc.
  pose proof (fun n => updateStarCount_sized n s Hw) as Hu.
  split; [exact Hg |].
  split; [exact Hc |].
  split; [exact Hu |].
  split; [intros u; exact Hw |].
  split; [exact Hw |].
  intros dt m b s' t. apply update_sized. exact Hw.
Qed.

Lemma buffers_stay_sized_witness :
  well_sized small_simulation
  /\ well_sized (state_of (updateStarCount (-5) small_simulation)).
Proof.
  destruct (buffers_stay_sized small_config (constructor small_config))
    as [H0 Hk].
  destruct (Hk H0) as [Hg _].
  destruct (buffers_stay_sized small_config
              (state_of (createGalaxySystem (constructor small_config))))
    as [_ Hk1].
  destruct (Hk1 Hg) as [_ [Hc _]].
  destruct (buffers_stay_sized small_config small_created) as [_ Hk2].
  destruct (Hk2 Hc) as [_ [_ [_ [_ [_ Hup]]]]].
  assert (Hsmall : well_sized small_simulation).
  { unfold small_simulation.
    destruct (update 0.016 (Vec3 0 0 0) false small_created)
      as [[s t] |] eqn:E.
    - exact (Hup _ _ _ _ _ E).
    - exact H0. }
  split; [exact Hsmall |].
  destruct (buffers_stay_sized small_config small_simulation) as [_ Hk3].
  destruct (Hk3 Hsmall) as [_ [_ [Hn _]]].
  exact (Hn (-5)%Z).
Defined.

Lemma assign_if_defined_twice {A : Type} (v : option A) (old : A) :
  assign_if_defined v (assign_if_defined v old) = assign_if_defined v old.
Proof. destruct v; reflexivity. Qed.

(** X16: [updateUniforms] with an object that defines no key changes
    nothing, and applying the same object twice is the same as applying it
    once. *)
Theorem updateUniforms_idempotent :
  forall (u : Update.t) (s : GalaxySimulation),
    updateUniforms Update.empty s = s
    /\ updateUniforms u (updateUniforms u s) = updateUniforms u s.
Proof.
  intros u s. split.
  - destruct s as [cfg cnt [[] [] []] st cl i ci]. reflexivity.
  - unfold updateUniforms. cbv zeta.
    cbn [config COUNT uniforms stars clouds initialized cloudInitialized
         u_compute u_galaxy u_visual
         compute_time compute_deltaTime compute_mouse compute_mouseActive
         compute_mouseForce compute_mouseRadius compute_rotationSpeed
         galaxy_radius galaxy_thickness galaxy_spiralTightness
         galaxy_armCount galaxy_armWidth galaxy_randomness
         visual_particleSize visual_cloudSize visual_cloudOpacity
         visual_starBrightness visual_denseStarColor visual_sparseStarColor
         visual_cloudTintColor].
    rewrite !assign_if_defined_twice.
    destruct (Update.cloudCount u); reflexivity.
Qed.

(** [onRegenerate] returns when the configured cloud count is not negative
    and throws otherwise, with the configuration already loaded into the
    uniforms. *)
Lemma onRegenerate_normal (s : GalaxySimulation) :
  (0 <= Config.cloudCount (config s))%Z ->
  exists s1,
    createClouds (updateUniforms (Update.of_config (config s)) s) = Normal s1
    /\ Main.onRegenerate s = Normal (regenerate s1).
Proof.
  intros H. unfold Main.onRegenerate.
  rewrite createClouds_normal by exact H.
  eexists. split; reflexivity.
Qed.

Lemma onRegenerate_thrown (s : GalaxySimulation) :
  (Config.cloudCount (config s) < 0)%Z ->
  Main.onRegenerate s
  = Thrown (updateUniforms (Update.of_config (config s)) s).
Proof.
  intros H. unfold Main.onRegenerate.
  rewrite createClouds_thrown by exact H. reflexivity.
Qed.

(** X17: the constructor replaces a configured thickness of 0 by 0.1
    ([config.galaxyThickness || 0.1]), so its thickness uniform is never 0,
    whereas a regeneration stores the configured thickness as it is, 0
    included. *)
Theorem thickness_default_only_at_construction :
  forall (cfg : Config.t) (s : GalaxySimulation),
    galaxy_thickness (u_galaxy (uniforms (constructor cfg))) <> 0
    /\ (Config.galaxyThickness cfg = 0 ->
        galaxy_thickness (u_galaxy (uniforms (constructor cfg))) = 0.1)
    /\ (Config.galaxyThickness cfg <> 0 ->
        galaxy_thickness (u_galaxy (uniforms (constructor cfg)))
        = Config.galaxyThickness cfg)
    /\ galaxy_thickness
         (u_galaxy (uniforms (state_of (Main.onRegenerate s))))
       = Config.galaxyThickness (config s).
Proof.
  intros cfg s.
  assert (Hre : galaxy_thickness
                  (u_galaxy (uniforms (state_of (Main.onRegenerate s))))
                = Config.galaxyThickness (config s)).
  { destruct (Z.lt_ge_cases (Config.cloudCount (config s)) 0) as [Hlt | Hge].
    - rewrite onRegenerate_thrown by exact Hlt. reflexivity.
    - unfold Main.onRegenerate.
      rewrite createClouds_normal by exact Hge. reflexivity. }
  simpl. unfold or_default.
  destruct (Req_dec_T (Config.galaxyThickness cfg) 0) as [E | N].
  - split; [lra |]. split; [reflexivity |]. split; [contradiction |].
    exact Hre.
  - split; [exact N |]. split; [contradiction |].
    split; [reflexivity | exact Hre].
Qed.

Lemma thickness_default_only_at_construction_witness :
  galaxy_thickness
    (u_galaxy (uniforms (constructor
                           (Ui.write_config Ui.GalaxyThickness 0 Main.config))))
  = 0.1
  /\ galaxy_thickness
       (u_galaxy (uniforms
                    (state_of (Ui.onStructuralChange Ui.GalaxyThickness 0
                                                     Main.galaxySimulation))))
     = 0.
Proof.
  destruct (thickness_default_only_at_construction
              (Ui.write_config Ui.GalaxyThickness 0 Main.config)
              Main.galaxySimulation) as [_ [H0 _]].
  split; [exact (H0 eq_refl) | reflexivity].
Defined.

(** X18: after [onRegenerate] every uniform that has a configuration key
    holds the value found in the configuration object; the time, the frame
    step and the mouse state are kept and the star buffers are untouched.
    When the configured cloud count is not negative the call returns, with
    zeroed cloud buffers of that count and both populations awaiting
    placement; when it is negative the call throws, with the clouds and
    both flags as they were. *)
Theorem onRegenerate_loads_config :
  forall s : GalaxySimulation,
    let c := config s in
    let s' := state_of (Main.onRegenerate s) in
    let n := Z.to_nat (Config.cloudCount c) in
    u_galaxy (uniforms s')
    = {| galaxy_radius := Config.galaxyRadius c;
         galaxy_thickness := Config.galaxyThickness c;
         galaxy_spiralTightness := Config.spiralTightness c;
         galaxy_armCount := Config.armCount c;
         galaxy_armWidth := Config.armWidth c;
         galaxy_randomness := Config.randomness c |}
    /\ u_visual (uniforms s')
       = {| visual_particleSize := Config.particleSize c;
            visual_cloudSize := Config.cloudSize c;
            visual_cloudOpacity := Config.cloudOpacity c;
            visual_starBrightness := Config.starBrightness c;
            visual_denseStarColor := Config.denseStarColor c;
            visual_sparseStarColor := Config.sparseStarColor c;
            visual_cloudTintColor := Config.cloudTintColor c |}
    /\ u_compute (uniforms s')
       = {| compute_time := compute_time (u_compute (uniforms s));
            compute_deltaTime := compute_deltaTime (u_compute (uniforms s));
            compute_mouse := compute_mouse (u_compute (uniforms s));
            compute_mouseActive := compute_mouseActive (u_compute (uniforms s));
            compute_mouseForce := Config.mouseForce c;
            compute_mouseRadius := Config.mouseRadius c;
            compute_rotationSpeed := Config.rotationSpeed c |}
    /\ config s' = c
    /\ COUNT s' = COUNT s
    /\ stars s' = stars s
    /\ ((0 <= Config.cloudCount c)%Z ->
        Main.onRegenerate s = Normal s'
        /\ initialized s' = false
        /\ cloudInitialized s' = false
        /\ clouds s'
           = Some {| CLOUD_COUNT := n;
                     cloudPositionBuffer := repeat (Some vzero) n;
                     cloudOriginalPositionBuffer := repeat (Some vzero) n;
                     cloudColorBuffer := repeat (Some vzero) n;
                     cloudSizeBuffer := repeat (Some 0) n;
                     cloudRotationBuffer := repeat (Some 0) n |})
    /\ ((Config.cloudCount c < 0)%Z ->
        Main.onRegenerate s = Thrown s'
        /\ initialized s' = initialized s
        /\ cloudInitialized s' = cloudInitialized s
        /\ clouds s' = clouds s).
Proof.
  intros s c s' n. subst c s' n.
  assert (Hcfg : config (updateUniforms (Update.of_config (config s)) s)
                 = config s).
  { destruct s as [[] ? ? ? ? ? ?]. reflexivity. }
  destruct (Z.lt_ge_cases (Config.cloudCount (config s)) 0) as [Hlt | Hge].
  - rewrite onRegenerate_thrown by exact Hlt. cbn [state_of].
    split; [reflexivity |]. split; [reflexivity |]. split; [reflexivity |].
    split; [exact Hcfg |].
    split; [reflexivity |]. split; [reflexivity |].
    split; [intros Hge; lia |].
    intros _. repeat split.
  - unfold Main.onRegenerate.
    rewrite createClouds_normal by exact Hge.
    cbn [andThen state_of].
    split; [reflexivity |]. split; [reflexivity |]. split; [reflexivity |].
    split; [exact Hcfg |].
    split; [reflexivity |]. split; [reflexivity |].
    split; [| intros Hlt; lia].
    intros _. repeat split.
Qed.

Lemma onRegenerate_loads_config_witness :
  (exists s1,
     Main.onRegenerate small_simulation = Normal s1
     /\ initialized s1 = false
     /\ clouds s1
        = Some {| CLOUD_COUNT := 2;
                  cloudPositionBuffer := [Some vzero; Some vzero];
                  cloudOriginalPositionBuffer := [Some vzero; Some vzero];
                  cloudColorBuffer := [Some vzero; Some vzero];
                  cloudSizeBuffer := [Some 0; Some 0];
                  cloudRotationBuffer := [Some 0; Some 0] |})
  /\ (exists s1,
        Main.onRegenerate negative_clouds_simulation = Thrown s1
        /\ initialized s1 = true
        /\ clouds s1 = clouds small_simulation).
Proof.
  split.
  - destruct (onRegenerate_loads_config small_simulation)
      as [_ [_ [_ [_ [_ [_ [Hn _]]]]]]].
    destruct (Hn ltac:(change (0 <= 2)%Z; lia)) as [E [Hi [_ Hc]]].
    eexists. split; [exact E |]. split; [exact Hi | exact Hc].
  - destruct (onRegenerate_loads_config negative_clouds_simulation)
      as [_ [_ [_ [_ [_ [_ [_ Ht]]]]]]].
    destruct (Ht ltac:(change (-1 < 0)%Z; lia)) as [E [Hi [_ Hc]]].
    eexists. split; [exact E |]. split; [exact Hi | exact Hc].
Defined.

(** The uniform a numeric cosmetic key is stored in. *)
Lemma onUniformChange_stores (k : Main.NumericKey) (value : R)
    (s : GalaxySimulation) :
  let u := uniforms (Main.onUniformChange k value s) in
  match k with
  | Main.ParticleSize => visual_particleSize (u_visual u)
  | Main.StarBrightness => visual_starBrightness (u_visual u)
  | Main.CloudSize => visual_cloudSize (u_visual u)
  | Main.CloudOpacity => visual_cloudOpacity (u_visual u)
  | Main.RotationSpeed => compute_rotationSpeed (u_compute u)
  | Main.MouseForce => compute_mouseForce (u_compute u)
  | Main.MouseRadius => compute_mouseRadius (u_compute u)
  end = value.
Proof. destruct k; reflexivity. Qed.

(** X19: a cosmetic edit (star size or brightness, cloud size or opacity,
    rotation speed, mouse force or radius, star colours) regenerates
    nothing: the galaxy uniforms, both buffer sets, the particle count and
    both initialisation flags are unchanged, and the next [update]
    dispatches exactly the kernels it would have dispatched without the
    edit. *)
Theorem cosmetic_edit_regenerates_nothing :
  forall (s : GalaxySimulation) (k : Main.NumericKey) (ck : Main.ColorKey)
         (value dt : R) (colour mouse3D : vec3) (mousePressed : bool),
    let unchanged := fun s' : GalaxySimulation =>
      u_galaxy (uniforms s') = u_galaxy (uniforms s)
      /\ stars s' = stars s
      /\ clouds s' = clouds s
      /\ COUNT s' = COUNT s
      /\ initialized s' = initialized s
      /\ cloudInitialized s' = cloudInitialized s
      /\ option_map snd (update dt mouse3D mousePressed s')
         = option_map snd (update dt mouse3D mousePressed s) in
    unchanged (Ui.onCosmeticChange k value s)
    /\ unchanged (Main.onUniformChangeColor ck colour s).
Proof.
  intros s k ck value dt colour mouse3D mousePressed unchanged.
  subst unchanged. cbv beta.
  destruct s as [cfg cnt [uc [] uv] st cl i ci].
  split.
  - destruct k; repeat (split; [reflexivity |]);
      destruct st, cl, i, ci; reflexivity.
  - destruct ck; repeat (split; [reflexivity |]);
      destruct st, cl, i, ci; reflexivity.
Qed.

(** X20: an edit of the cloud count rebuilds the clouds only.  The new cloud
    buffers have the new size and await placement; the stars, their flag and
    the uniforms are untouched, and the next [update] of an initialised star
    population dispatches the cloud placement but not the star placement. *)
Theorem cloud_count_edit_regenerates_clouds_only :
  forall (s : GalaxySimulation) (st : StarSystem) (value : Z) (dt : R)
         (mouse3D : vec3) (mousePressed : bool),
    stars s = Some st ->
    initialized s = true ->
    (0 <= value)%Z ->
    exists s',
    Ui.onCloudCountEdit value s = Normal s'
    /\ stars s' = Some st
    /\ initialized s' = true
    /\ uniforms s' = uniforms s
    /\ Config.cloudCount (config s') = value
    /\ cloudInitialized s' = false
    /\ (exists cl,
          clouds s' = Some cl
          /\ Z.of_nat (CLOUD_COUNT cl) = value
          /\ cloud_sized cl)
    /\ exists s2,
         update dt mouse3D mousePressed s'
         = Some (s2, [RunCloudInit; RunComputeUpdate; RunCloudUpdate])
         /\ cloudInitialized s2 = true.
Proof.
  intros s st value dt mouse3D mousePressed Hst Hinit Hv.
  unfold Ui.onCloudCountEdit, Main.onCloudCountChange.
  rewrite createClouds_normal by exact Hv.
  eexists. split; [reflexivity |].
  split; [exact Hst |]. split; [exact Hinit |].
  split; [destruct s as [? ? [[] [] []] ? ? ? ?]; reflexivity |].
  split; [reflexivity |]. split; [reflexivity |].
  split.
  - eexists. split; [reflexivity |]. split.
    + cbn [CLOUD_COUNT]. apply Z2Nat.id. exact Hv.
    + unfold cloud_sized.
      cbn [CLOUD_COUNT cloudPositionBuffer cloudOriginalPositionBuffer
           cloudColorBuffer cloudSizeBuffer cloudRotationBuffer].
      rewrite !repeat_length. repeat split.
  - unfold update.
    cbn [stars clouds initialized cloudInitialized updateUniforms].
    rewrite Hst, Hinit. cbn [bind negb].
    eexists. split; reflexivity.
Qed.

Lemma cloud_count_edit_regenerates_clouds_only_witness :
  exists s1 s2,
    Ui.onCloudCountEdit 4 small_simulation = Normal s1
    /\ update 0.016 (Vec3 0 0 0) false s1
       = Some (s2, [RunCloudInit; RunComputeUpdate; RunCloudUpdate]).
Proof.
  assert (Hv : (0 <= 4)%Z) by lia.
  destruct (cloud_count_edit_regenerates_clouds_only small_simulation _ 4
              0.016 (Vec3 0 0 0) false eq_refl eq_refl Hv)
    as [s1 [E [_ [_ [_ [_ [_ [_ [s2 [H _]]]]]]]]]].
  exists s1, s2. split; [exact E | exact H].
Defined.

(** X21: a resize to a count that is not negative stores the count, rebuilds
    the four star buffers with one zeroed element per star, leaves the
    clouds, their flag and the uniforms alone, and makes the next [update]
    start with the star placement. *)
Theorem star_count_change_rebuilds_stars :
  forall (s : GalaxySimulation) (newCount : Z) (dt : R) (mouse3D : vec3)
         (mousePressed : bool),
    (0 <= newCount)%Z ->
    exists s',
    Main.onStarCountChange newCount s = Normal s'
    /\ COUNT s' = newCount
    /\ Config.starCount (config s') = newCount
    /\ initialized s' = false
    /\ clouds s' = clouds s
    /\ cloudInitialized s' = cloudInitialized s
    /\ uniforms s' = uniforms s
    /\ exists st,
         stars s' = Some st
         /\ Z.of_nat (star_count st) = newCount
         /\ star_sized st
         /\ (forall o, In o (spawnPositionBuffer st) -> o = Some vzero)
         /\ exists s2 rest,
              update dt mouse3D mousePressed s'
              = Some (s2, RunComputeInit :: rest).
Proof.
  intros s newCount dt mouse3D mousePressed Hn.
  unfold Main.onStarCountChange, updateStarCount. cbv zeta.
  rewrite createGalaxySystem_normal by exact Hn.
  cbn [andThen].
  eexists. split; [reflexivity |].
  repeat (split; [reflexivity |]).
  eexists. split; [reflexivity |].
  split; [cbn [star_count COUNT]; apply Z2Nat.id; exact Hn |].
  split.
  { unfold star_sized.
    cbn [star_count spawnPositionBuffer originalPositionBuffer velocityBuffer
         densityFactorBuffer].
    rewrite !repeat_length. repeat split. }
  split.
  { intros o Ho. cbn [spawnPositionBuffer] in Ho.
    apply repeat_spec in Ho. exact Ho. }
  eexists. eexists. reflexivity.
Qed.

Lemma star_count_change_rebuilds_stars_witness :
  exists s1,
    Main.onStarCountChange 1000 Main.galaxySimulation = Normal s1
    /\ COUNT s1 = 1000%Z
    /\ initialized s1 = false.
Proof.
  assert (Hn : (0 <= 1000)%Z) by lia.
  destruct (star_count_change_rebuilds_stars Main.galaxySimulation 1000
              0.016 (Vec3 0 0 0) false Hn) as [s1 [E [H1 [_ [H3 _]]]]].
  exists s1. split; [exact E |]. split; [exact H1 | exact H3].
Defined.

(** ** main.js: frame counter, animation loop and background *)

Lemma runFPS_app (l1 l2 : list R) (s : Main.FpsCounter) :
  runFPS (l1 ++ l2) s = runFPS l2 (runFPS l1 s).
Proof.
  revert s. induction l1 as [| t l1 IH]; intros s; [reflexivity |].
  simpl. apply IH.
Qed.

(** While less than a second has passed since the last report the counter
    only counts. *)
Lemma runFPS_counting (T t0 f0 : R) (m : nat) :
  0 < T -> INR m * T < 1000 ->
  runFPS (map (fun k => t0 + INR k * T) (seq 1 m))
         {| Main.frameCount := 0; Main.lastTime := t0; Main.fps := f0 |}
  = {| Main.frameCount := Z.of_nat m; Main.lastTime := t0; Main.fps := f0 |}.
Proof.
  intros HT. induction m as [| m IH]; intros Hm; [reflexivity |].
  rewrite seq_S, map_app, runFPS_app.
  rewrite S_INR in Hm.
  rewrite IH by nra.
  cbn [map runFPS Nat.add]. unfold Main.updateFPS. cbv zeta.
  cbn [Main.frameCount Main.lastTime Main.fps].
  destruct (Rle_dec 1000 (t0 + INR (S m) * T - t0)) as [Hle | _].
  - exfalso. rewrite S_INR in Hle. lra.
  - cbn [fst]. f_equal. lia.
Qed.

(** X22: at a steady frame period [T] the counter reports the rounded
    frame rate.  If the report is due at the frame [m + 1] (the first one a
    second or more after the last report), the value reported there is
    [Math.round(1000 / T)] whatever [m] is, the frame count is reset and
    the reference time moves to that frame. *)
Theorem fps_reports_steady_rate :
  forall (T t0 f0 : R) (m : nat),
    0 < T ->
    INR m * T < 1000 ->
    1000 <= INR (S m) * T ->
    runFPS (map (fun k => t0 + INR k * T) (seq 1 (S m)))
           {| Main.frameCount := 0; Main.lastTime := t0; Main.fps := f0 |}
    = {| Main.frameCount := 0;
         Main.lastTime := t0 + INR (S m) * T;
         Main.fps := Main.Math_round (1000 / T) |}.
Proof.
  intros T t0 f0 m HT Hm Hdue.
  rewrite seq_S, map_app, runFPS_app.
  rewrite runFPS_counting by assumption.
  cbn [map runFPS Nat.add]. unfold Main.updateFPS. cbv zeta.
  cbn [Main.frameCount Main.lastTime Main.fps].
  destruct (Rle_dec 1000 (t0 + INR (S m) * T - t0)) as [_ | Hn].
  - cbn [fst]. f_equal. f_equal.
    replace (Z.of_nat m + 1)%Z with (Z.of_nat (S m)) by lia.
    rewrite <- INR_IZR_INZ.
    replace (t0 + INR (S m) * T - t0) with (INR (S m) * T) by ring.
    field. split; [lra | apply not_0_INR; discriminate].
  - exfalso. apply Hn. lra.
Qed.

Lemma fps_reports_steady_rate_witness :
  runFPS (map (fun k => 0 + INR k * 500) (seq 1 2))
         {| Main.frameCount := 0; Main.lastTime := 0; Main.fps := 60 |}
  = {| Main.frameCount := 0;
       Main.lastTime := 0 + INR 2 * 500;
       Main.fps := Main.Math_round (1000 / 500) |}.
Proof.
  apply (fps_reports_steady_rate 500 0 60 1); simpl; lra.
Defined.

Lemma sphere_point_length (r phi theta : R) :
  length (Vec3 (r * sin phi * cos theta) (r * sin phi * sin theta)
               (r * cos phi)) = Rabs r.
Proof.
  unfold length. simpl.
  pose proof (sin2_cos2 phi) as Hp. pose proof (sin2_cos2 theta) as Ht.
  unfold Rsqr in Hp, Ht.
  replace (r * sin phi * cos theta * (r * sin phi * cos theta)
           + r * sin phi * sin theta * (r * sin phi * sin theta)
           + r * cos phi * (r * cos phi))
    with (r * r * (sin phi * sin phi
                   * (sin theta * sin theta + cos theta * cos theta)
                   + cos phi * cos phi)) by ring.
  rewrite Ht, Rmult_1_r, Hp, Rmult_1_r.
  apply sqrt_Rsqr_abs.
Qed.

(** X23: with [Math.random()] in [0,1), [createStarryBackground] makes
    [count] stars, each at a distance from the origin of at least 100 and
    less than 200, and each colour channel at least 0.48 and less than 1. *)
Theorem background_stars_in_shell :
  forall (random : nat -> R) (count : nat),
    (forall k, 0 <= random k < 1) ->
    List.length (Main.createStarryBackground random count) = count
    /\ Forall (fun star : vec3 * vec3 =>
                 100 <= length (fst star) < 200
                 /\ 0.48 <= vx (snd star) < 1
                 /\ 0.48 <= vy (snd star) < 1
                 /\ 0.48 <= vz (snd star) < 1)
              (Main.createStarryBackground random count).
Proof.
  intros random count Hrand.
  unfold Main.createStarryBackground.
  split; [now rewrite length_map, length_seq |].
  apply Forall_forall. intros star Hin.
  apply in_map_iff in Hin. destruct Hin as [i [Hi _]]. subst star.
  unfold Main.backgroundStar. cbv zeta. cbn [fst snd].
  pose proof (Hrand (5 * i + 2)%nat) as H2.
  pose proof (Hrand (5 * i + 3)%nat) as H3.
  split.
  - rewrite sphere_point_length, Rabs_right by lra. lra.
  - destruct (Rlt_dec (random (5 * i + 4)%nat) 0.1);
      [| destruct (Rlt_dec (random (5 * i + 4)%nat) 0.2)];
      cbn [vx vy vz]; repeat split; lra.
Qed.

Lemma background_stars_in_shell_witness :
  List.length (Main.createStarryBackground (fun _ => 0.5) 3) = 3%nat
  /\ Forall (fun star : vec3 * vec3 =>
               100 <= length (fst star) < 200
               /\ 0.48 <= vx (snd star) < 1
               /\ 0.48 <= vy (snd star) < 1
               /\ 0.48 <= vz (snd star) < 1)
            (Main.createStarryBackground (fun _ => 0.5) 3).
Proof.
  assert (H : forall k : nat, 0 <= (fun _ : nat => 0.5) k < 1)
    by (intros k; lra).
  exact (background_stars_in_shell (fun _ => 0.5) 3 H).
Defined.

Lemma frameDeltaTime_range (currentTime lastFrameTime : R) :
  lastFrameTime <= currentTime ->
  0 <= Main.frameDeltaTime currentTime lastFrameTime <= 0.033
  /\ Main.frameDeltaTime currentTime lastFrameTime
     <= (currentTime - lastFrameTime) / 1000.
Proof.
  intros H. unfold Main.frameDeltaTime.
  split; [split; [apply Rmin_glb; lra | apply Rmin_r] | apply Rmin_l].
Qed.

(** X24: the simulation clock never runs ahead of the wall clock.  Over any
    run of frames whose clock values do not go back, on a simulation whose
    star system exists, every [animate] call succeeds, the time uniform
    never decreases, and it advances by at most the elapsed wall time in
    seconds and by at most 0.033 per frame. *)
Theorem simulation_clock_behind_wall_clock :
  forall (frames : list (R * vec3 * bool)) (last : R)
         (s : GalaxySimulation),
    stars s <> None ->
    chronological last frames ->
    exists last' s',
      runAnimate frames (last, s) = Some (last', s')
      /\ stars s' <> None
      /\ last <= last'
      /\ compute_time (u_compute (uniforms s))
         <= compute_time (u_compute (uniforms s'))
      /\ compute_time (u_compute (uniforms s'))
         - compute_time (u_compute (uniforms s))
         <= (last' - last) / 1000
      /\ compute_time (u_compute (uniforms s'))
         - compute_time (u_compute (uniforms s))
         <= 0.033 * INR (List.length frames).
Proof.
  induction frames as [| [[t m] b] rest IH]; intros last s Hst Hchr.
  - exists last, s. simpl. split; [reflexivity |].
    split; [exact Hst |]. repeat split; lra.
  - destruct Hchr as [Hle Hrest].
    destruct (frameDeltaTime_range t last Hle) as [[Hd0 Hd1] Hd2].
    destruct (stars s) as [st |] eqn:Est; [| contradiction].
    cbn [runAnimate]. unfold Main.animate. cbn [fst snd].
    unfold update at 1. rewrite Est. cbn [bind fst snd].
    match goal with
    | |- context [runAnimate rest (t, ?s1)] =>
        destruct (IH t s1) as [last' [s' [Hrun [Hst' [Hl [Ht0 [Ht1 Ht2]]]]]]];
        [cbn [stars]; discriminate | exact Hrest |]
    end.
    exists last', s'. split; [exact Hrun |]. split; [exact Hst' |].
    cbn [uniforms u_compute compute_time] in Ht0, Ht1, Ht2.
    change (List.length ((t, m, b) :: rest)) with (S (List.length rest)).
    rewrite S_INR.
    repeat split; lra.
Qed.

Lemma simulation_clock_behind_wall_clock_witness :
  exists last' s',
    runAnimate [(1016, Vec3 0 0 0, false); (3000, Vec3 1 0 0, true)]
               (1000, small_created)
    = Some (last', s')
    /\ compute_time (u_compute (uniforms s')) - 0 <= (last' - 1000) / 1000.
Proof.
  assert (Hst : stars small_created <> None) by discriminate.
  assert (Hchr : chronological 1000
                   [(1016, Vec3 0 0 0, false); (3000, Vec3 1 0 0, true)]).
  { simpl. repeat split; lra. }
  destruct (simulation_clock_behind_wall_clock _ 1000 _ Hst Hchr)
    as [last' [s' [Hrun [_ [_ [_ [Hb _]]]]]]].
  exists last', s'. split; [exact Hrun | exact Hb].
Defined.

(** ** The spring force on its own *)

(** X25: adding the spring force moves a point along the straight line to
    its target: the result is the blend of the point and the target with
    weight [strength * deltaTime], its distance to the target is the old
    one times [|1 - strength * deltaTime|], and it is the target itself
    when [strength * deltaTime = 1]. *)
Theorem spring_force_moves_toward_target :
  forall (p target : vec3) (strength dt : R),
    vadd p (applySpringForce p target strength dt)
    = mix p target (strength * dt)
    /\ dist (vadd p (applySpringForce p target strength dt)) target
       = Rabs (1 - strength * dt) * dist p target
    /\ (strength * dt = 1 ->
        vadd p (applySpringForce p target strength dt) = target).
Proof.
  intros p target strength dt.
  split; [| split].
  - unfold applySpringForce, mix, vadd, vsub, vscale.
    apply vec3_eq; simpl; ring.
  - unfold dist. rewrite <- length_vscale. f_equal.
    unfold applySpringForce, vadd, vsub, vscale.
    apply vec3_eq; simpl; ring.
  - intros H1. unfold applySpringForce, vadd, vsub, vscale.
    apply vec3_eq; simpl.
    + replace (vx p + (vx target - vx p) * strength * dt)
        with (vx p + (vx target - vx p) * (strength * dt)) by ring.
      rewrite H1. ring.
    + replace (vy p + (vy target - vy p) * strength * dt)
        with (vy p + (vy target - vy p) * (strength * dt)) by ring.
      rewrite H1. ring.
    + replace (vz p + (vz target - vz p) * strength * dt)
        with (vz p + (vz target - vz p) * (strength * dt)) by ring.
      rewrite H1. ring.
Qed.

Lemma spring_force_moves_toward_target_witness :
  vadd (Vec3 1 0 0) (applySpringForce (Vec3 1 0 0) (Vec3 3 4 0) 2 0.5)
  = Vec3 3 4 0.
Proof.
  destruct (spring_force_moves_toward_target (Vec3 1 0 0) (Vec3 3 4 0) 2 0.5)
    as [_ [_ H]].
  apply H. lra.
Defined.
